(** * osuapi: the JSON-to-model mapping layer and the request glue

    A shallow embedding of [osuapi/model.py] and [osuapi/osu.py].

    Python values are the constructors of [value]; a raised exception is the
    [Err] branch of [result]; a Python callable is a function into the
    effect type [Eff], which threads an arbitrary world state so that
    "is this converter invoked, and in which order" is observable. *)

From Stdlib Require Import ZArith String Ascii List Lia.
From Stdlib Require Import Floats.SpecFloat.
From Stdlib Require Import Numbers.DecimalString.
From stdpp Require Import base gmap strings list fin_maps.

Local Open Scope string_scope.
Local Open Scope Z_scope.

(** ** Exceptions and results *)

(** The exception classes the modelled code can raise. *)
Inductive exc_class :=
| ValueError | TypeError | KeyError | NameError | AttributeError
| ImportError | OverflowError.

(** An error is a Python exception (class and message) or one of the two
    field-attributed conditions of the attribute model. *)
Inductive error :=
| PyExc (cls : exc_class) (msg : string)
| MissingField (field : string)
| FieldConversion (field : string) (cause : error).

Inductive result (A : Type) :=
| Ok (a : A)
| Err (e : error).
Arguments Ok {A} a.
Arguments Err {A} e.

Definition is_ok {A} (r : result A) : bool :=
  match r with Ok _ => true | Err _ => false end.

Definition result_bind {A B} (r : result A) (k : A -> result B) : result B :=
  match r with Ok a => k a | Err e => Err e end.

(** ** Python values *)

(** A naive [datetime.datetime] (microsecond 0, no tzinfo). *)
Record datetime := mk_datetime {
  dt_year : Z; dt_month : Z; dt_day : Z;
  dt_hour : Z; dt_minute : Z; dt_second : Z }.

(** Decoded JSON ([VNone] .. [VDict]) and the typed values the converters
    produce.  Text is ASCII.  A dictionary is a finite map from its keys:
    the order in which the keys were inserted is not represented.
    [VObj cls attrs] is an instance of the model class [cls] with its
    attribute dictionary; [VOpaque n] stands for a function, class or
    module object that the model does not look into. *)
#[warnings="-register-all"]
Inductive value :=
| VNone
| VBool (b : bool)
| VInt (z : Z)
| VFloat (f : spec_float)
| VStr (s : string)
| VList (l : list value)
| VDict (d : gmap string value)
| VDateTime (d : datetime)
| VEnum (cls : string) (name : string) (val : Z)
| VObj (cls : string) (attrs : gmap string value)
| VOpaque (qualname : string).

Definition type_name (v : value) : string :=
  match v with
  | VNone => "NoneType"
  | VBool _ => "bool"
  | VInt _ => "int"
  | VFloat _ => "float"
  | VStr _ => "str"
  | VList _ => "list"
  | VDict _ => "dict"
  | VDateTime _ => "datetime.datetime"
  | VEnum cls _ _ => cls
  | VObj cls _ => cls
  | VOpaque _ => "object"
  end.

(** [it is None] *)
Definition is_None (v : value) : bool :=
  match v with VNone => true | _ => false end.

(** ** Text helpers *)

Definition Z_repr (z : Z) : string := NilZero.string_of_int (Z.to_int z).

Definition quote (s : string) : string := "'" ++ s ++ "'".

Definition ascii_in (lo hi c : ascii) : bool :=
  ((nat_of_ascii lo <=? nat_of_ascii c)%nat && (nat_of_ascii c <=? nat_of_ascii hi)%nat)%bool.

Definition is_digit (c : ascii) : bool := ascii_in "0" "9" c.

(** ASCII characters for which [str.isspace] holds: TAB, LF, VT, FF, CR,
    FS, GS, RS, US and the space. *)
Definition is_space (c : ascii) : bool :=
  let n := nat_of_ascii c in
  (((9 <=? n)%nat && (n <=? 13)%nat) || ((28 <=? n)%nat && (n <=? 32)%nat))%bool.

Definition digit_val (c : ascii) : Z := Z.of_nat (nat_of_ascii c) - 48.


(** ** The effect type *)

Section Effects.
(** Everything a callable can observe or change besides its arguments. *)
Context {World : Type}.

Definition Eff (A : Type) : Type := World -> result A * World.

Definition ret {A} (a : A) : Eff A := fun w => (Ok a, w).
Definition raise {A} (e : error) : Eff A := fun w => (Err e, w).
Definition lift {A} (r : result A) : Eff A := fun w => (r, w).

Definition bind {A B} (m : Eff A) (k : A -> Eff B) : Eff B :=
  fun w => match m w with
           | (Ok a, w') => k a w'
           | (Err e, w') => (Err e, w')
           end.

(** A converter: what [Attribute], [JsonList], [Nullable] and
    [PreProcessInt] take as [type_] / [oftype]. *)
Definition converter : Type := value -> Eff value.

Definition pure_conv (f : value -> result value) : converter :=
  fun v => lift (f v).
End Effects.
Arguments Eff : clear implicits.
Arguments converter : clear implicits.

Notation "'let*' x ':=' m 'in' k" := (bind m (fun x => k))
  (at level 10, x name, m at level 100, k at level 200).

(** ** Builtins: [int], [bool], [float], [str]

    These are not code of the package; they are modelled after CPython on
    ASCII text.  Parsing and printing of floating-point literals is left to
    the [Runtime]. *)

Class Runtime := {
  (** [float(s)] on a string: the parsed double, if [s] is a float literal *)
  float_of_str : string -> option spec_float;
  (** [str(v)] for the values whose text form needs float printing or a
      recursive [repr] *)
  str_other : value -> string }.

Fixpoint lstrip (cs : list ascii) : list ascii :=
  match cs with
  | c :: cs' => if is_space c then lstrip cs' else cs
  | [] => []
  end.

Definition strip (cs : list ascii) : list ascii :=
  rev (lstrip (rev (lstrip cs))).

(** Digits with single underscores between them, as [int] accepts. *)
Fixpoint int_digits (acc : Z) (prev_digit : bool) (cs : list ascii) : option Z :=
  match cs with
  | [] => if prev_digit then Some acc else None
  | c :: cs' =>
      if is_digit c then int_digits (10 * acc + digit_val c) true cs'
      else if (Ascii.eqb c "_" && prev_digit)%bool then int_digits acc false cs'
      else None
  end.

Definition int_literal (s : string) : option Z :=
  match strip (list_ascii_of_string s) with
  | c :: cs =>
      if Ascii.eqb c "+" then int_digits 0 false cs
      else if Ascii.eqb c "-" then option_map Z.opp (int_digits 0 false cs)
      else int_digits 0 false (c :: cs)
  | [] => None
  end.

(** Truncation of a double towards zero. *)
Definition float_trunc (f : spec_float) : result Z :=
  match f with
  | S754_zero _ => Ok 0
  | S754_infinity _ =>
      Err (PyExc OverflowError "cannot convert float infinity to integer")
  | S754_nan => Err (PyExc ValueError "cannot convert float NaN to integer")
  | S754_finite sg m e =>
      let mag := if 0 <=? e then Z.pos m * 2 ^ e else Z.pos m / 2 ^ (- e) in
      Ok (if sg then - mag else mag)
  end.

(** [int(it)] *)
Definition py_int (v : value) : result value :=
  match v with
  | VInt z => Ok (VInt z)
  | VBool b => Ok (VInt (if b then 1 else 0))
  | VFloat f => result_bind (float_trunc f) (fun z => Ok (VInt z))
  | VStr s =>
      match int_literal s with
      | Some z => Ok (VInt z)
      | None => Err (PyExc ValueError
                       ("invalid literal for int() with base 10: " ++ quote s))
      end
  | _ => Err (PyExc TypeError
                ("int() argument must be a string, a bytes-like object or a real number, not "
                 ++ quote (type_name v)))
  end.

(** Truth value testing. *)
Definition truth_value (v : value) : bool :=
  match v with
  | VNone => false
  | VBool b => b
  | VInt z => negb (z =? 0)
  | VFloat (S754_zero _) => false
  | VFloat _ => true
  | VStr s => negb (String.eqb s "")
  | VList l => match l with [] => false | _ => true end
  | VDict d => match map_to_list d with [] => false | _ => true end
  | _ => true
  end.

(** [bool(it)]; it never raises on these values. *)
Definition py_bool (v : value) : result value := Ok (VBool (truth_value v)).

(** The double nearest to an integer; [None] when it is out of range. *)
Definition float_of_Z (z : Z) : option spec_float :=
  match binary_normalize 53 1024 z 0 false with
  | S754_infinity _ => None
  | f => Some f
  end.

Section WithRuntime.
Context {RT : Runtime}.

(** [float(it)] *)
Definition py_float (v : value) : result value :=
  match v with
  | VFloat f => Ok (VFloat f)
  | VInt z =>
      match float_of_Z z with
      | Some f => Ok (VFloat f)
      | None => Err (PyExc OverflowError "int too large to convert to float")
      end
  | VBool b => Ok (VFloat (if b then S754_finite false 4503599627370496 (-52)
                           else S754_zero false))
  | VStr s =>
      match float_of_str s with
      | Some f => Ok (VFloat f)
      | None => Err (PyExc ValueError
                       ("could not convert string to float: " ++ quote s))
      end
  | _ => Err (PyExc TypeError
                ("float() argument must be a string or a real number, not "
                 ++ quote (type_name v)))
  end.

(** [str(it)] *)
Definition py_str (v : value) : result value :=
  Ok (VStr
    match v with
    | VStr s => s
    | VInt z => Z_repr z
    | VBool b => if b then "True" else "False"
    | VNone => "None"
    | _ => str_other v
    end).
End WithRuntime.

(** ** Enumerations *)

(** What [class E(Enum)] provides: its members in definition order, and
    for each member its name and its value. *)
Class PyEnum (E : Type) := {
  enum_qualname : string;
  enum_members : list E;
  enum_name : E -> string;
  enum_value : E -> Z }.

Module OsuMode.
Inductive t := osu | taiko | ctb | mania.
Definition value (m : t) : Z :=
  match m with osu => 0 | taiko => 1 | ctb => 2 | mania => 3 end.
Definition name (m : t) : string :=
  match m with
  | osu => "osu" | taiko => "taiko" | ctb => "ctb" | mania => "mania"
  end.
#[global] Instance py_enum : PyEnum t :=
  {| enum_qualname := "OsuMode";
     enum_members := [osu; taiko; ctb; mania];
     enum_name := name; enum_value := value |}.
End OsuMode.

Module BeatmapStatus.
Inductive t := graveyard | wip | pending | ranked | approved | qualified.
Definition value (m : t) : Z :=
  match m with
  | graveyard => -2 | wip => -1 | pending => 0
  | ranked => 1 | approved => 2 | qualified => 3
  end.
Definition name (m : t) : string :=
  match m with
  | graveyard => "graveyard" | wip => "wip" | pending => "pending"
  | ranked => "ranked" | approved => "approved" | qualified => "qualified"
  end.
#[global] Instance py_enum : PyEnum t :=
  {| enum_qualname := "BeatmapStatus";
     enum_members := [graveyard; wip; pending; ranked; approved; qualified];
     enum_name := name; enum_value := value |}.
End BeatmapStatus.

Module BeatmapGenre.
Inductive t :=
| any | unspecified | video_game | anime | rock | pop | other | novelty
| hip_hop | electronic.
Definition value (m : t) : Z :=
  match m with
  | any => 0 | unspecified => 1 | video_game => 2 | anime => 3 | rock => 4
  | pop => 5 | other => 6 | novelty => 7 | hip_hop => 9 | electronic => 10
  end.
Definition name (m : t) : string :=
  match m with
  | any => "any" | unspecified => "unspecified" | video_game => "video_game"
  | anime => "anime" | rock => "rock" | pop => "pop" | other => "other"
  | novelty => "novelty" | hip_hop => "hip_hop" | electronic => "electronic"
  end.
#[global] Instance py_enum : PyEnum t :=
  {| enum_qualname := "BeatmapGenre";
     enum_members := [any; unspecified; video_game; anime; rock; pop; other;
                      novelty; hip_hop; electronic];
     enum_name := name; enum_value := value |}.
End BeatmapGenre.

Module BeatmapLanguage.
Inductive t :=
| any | other | english | japanese | chinese | instrumental | korean
| french | german | swedish | spanish | italian.
Definition value (m : t) : Z :=
  match m with
  | any => 0 | other => 1 | english => 2 | japanese => 3 | chinese => 4
  | instrumental => 5 | korean => 6 | french => 7 | german => 8
  | swedish => 9 | spanish => 10 | italian => 11
  end.
Definition name (m : t) : string :=
  match m with
  | any => "any" | other => "other" | english => "english"
  | japanese => "japanese" | chinese => "chinese"
  | instrumental => "instrumental" | korean => "korean" | french => "french"
  | german => "german" | swedish => "swedish" | spanish => "spanish"
  | italian => "italian"
  end.
#[global] Instance py_enum : PyEnum t :=
  {| enum_qualname := "BeatmapLanguage";
     enum_members := [any; other; english; japanese; chinese; instrumental;
                      korean; french; german; swedish; spanish; italian];
     enum_name := name; enum_value := value |}.
End BeatmapLanguage.

Section EnumCall.
Context (E : Type) {PE : PyEnum E}.

(** The member whose value is [z]: the first one in definition order. *)
Definition enum_lookup (z : Z) : option E :=
  find (fun m => enum_value m =? z) enum_members.

Definition enum_to_value (m : E) : value :=
  VEnum enum_qualname (enum_name m) (enum_value m).

Definition not_a_valid (shown : string) : error :=
  PyExc ValueError (shown ++ " is not a valid " ++ enum_qualname).

(** An integral double compares equal to the integer it denotes. *)
Definition float_as_Z (f : spec_float) : option Z :=
  match f with
  | S754_zero _ => Some 0
  | S754_finite sg m e =>
      if 0 <=? e then Some ((if sg then -1 else 1) * (Z.pos m * 2 ^ e))
      else if Z.pos m mod 2 ^ (- e) =? 0
           then Some ((if sg then -1 else 1) * (Z.pos m / 2 ^ (- e)))
           else None
  | _ => None
  end.

(** [E(v)]: look a member up by value.  The lookup is by equality, so
    [True] and [1.0] find the member whose value is [1]. *)
Definition Enum_call {RT : Runtime} (v : value) : result value :=
  match v with
  | VInt z =>
      match enum_lookup z with
      | Some m => Ok (enum_to_value m)
      | None => Err (not_a_valid (Z_repr z))
      end
  | VBool b =>
      match enum_lookup (if b then 1 else 0) with
      | Some m => Ok (enum_to_value m)
      | None => Err (not_a_valid (if b then "True" else "False"))
      end
  | VFloat f =>
      match float_as_Z f with
      | Some z =>
          match enum_lookup z with
          | Some m => Ok (enum_to_value m)
          | None => Err (not_a_valid (str_other v))
          end
      | None => Err (not_a_valid (str_other v))
      end
  | VEnum cls _ _ =>
      if String.eqb cls enum_qualname then Ok v
      else Err (not_a_valid (str_other v))
  | VStr s => Err (not_a_valid (quote s))
  | VNone => Err (not_a_valid "None")
  | _ => Err (not_a_valid (str_other v))
  end.
End EnumCall.
Arguments enum_lookup E {_} z.
Arguments enum_to_value {E _} m.
Arguments Enum_call E {_ _} v.

(** ** [datetime.strptime] and [strftime]

    [strptime] turns the format into a regular expression, takes the first
    match of the data against it (with backtracking), requires the match to
    cover the whole data, reads the named groups with [int] and builds the
    [datetime], which validates the ranges.  The directives modelled are
    the ones the package uses: [%Y %m %d %H %M %S] (and [%%]). *)

Inductive regex :=
| REmpty
| RLit (c : ascii)
| RDigit
| RRange (lo hi : ascii)
| RSpaces
| RSeq (r1 r2 : regex)
| RAlt (r1 r2 : regex)
| RGroup (name : ascii) (r : regex).

Definition captures : Type := list (ascii * list ascii).

(** Greedy [\s*] followed by [k], backing off one character at a time. *)
Fixpoint spaces_then {A} (k : list ascii -> option A) (cs : list ascii) : option A :=
  match cs with
  | c :: cs' =>
      if is_space c
      then match spaces_then k cs' with Some a => Some a | None => k cs end
      else k cs
  | [] => k []
  end.

Definition one_char {A} (p : ascii -> bool) (cs : list ascii)
    (k : list ascii -> option A) : option A :=
  match cs with
  | c :: cs' => if p c then k cs' else None
  | [] => None
  end.

(** The first way, in the regular expression's order of preference, to
    match a prefix of [cs] with [r] so that the continuation accepts. *)
Fixpoint rmatch {A} (r : regex) (cs : list ascii) (caps : captures)
    (k : list ascii -> captures -> option A) : option A :=
  match r with
  | REmpty => k cs caps
  | RLit c => one_char (Ascii.eqb c) cs (fun rest => k rest caps)
  | RDigit => one_char is_digit cs (fun rest => k rest caps)
  | RRange lo hi => one_char (ascii_in lo hi) cs (fun rest => k rest caps)
  | RSpaces =>
      one_char is_space cs (fun rest => spaces_then (fun rest' => k rest' caps) rest)
  | RSeq r1 r2 => rmatch r1 cs caps (fun rest caps' => rmatch r2 rest caps' k)
  | RAlt r1 r2 =>
      match rmatch r1 cs caps k with
      | Some a => Some a
      | None => rmatch r2 cs caps k
      end
  | RGroup n r' =>
      rmatch r' cs caps
        (fun rest caps' =>
           k rest ((n, take (length cs - length rest)%nat cs) :: caps'))
  end.

(** [re.match]: the remaining input and the groups of the first match. *)
Definition re_match (r : regex) (cs : list ascii) : option (list ascii * captures) :=
  rmatch r cs [] (fun rest caps => Some (rest, caps)).

Definition rseq (rs : list regex) : regex := foldr RSeq REmpty rs.

(** The regular expression of each directive. *)
Definition directive_regex (d : ascii) : option regex :=
  match d with
  | "Y"%char => Some (RGroup "Y" (rseq [RDigit; RDigit; RDigit; RDigit]))
  | "m"%char =>
      Some (RGroup "m"
        (RAlt (RSeq (RLit "1") (RRange "0" "2"))
        (RAlt (RSeq (RLit "0") (RRange "1" "9"))
              (RRange "1" "9"))))
  | "d"%char =>
      Some (RGroup "d"
        (RAlt (RSeq (RLit "3") (RRange "0" "1"))
        (RAlt (RSeq (RRange "1" "2") RDigit)
        (RAlt (RSeq (RLit "0") (RRange "1" "9"))
        (RAlt (RRange "1" "9")
              (RSeq (RLit " ") (RRange "1" "9")))))))
  | "H"%char =>
      Some (RGroup "H"
        (RAlt (RSeq (RLit "2") (RRange "0" "3"))
        (RAlt (RSeq (RRange "0" "1") RDigit)
              RDigit)))
  | "M"%char =>
      Some (RGroup "M" (RAlt (RSeq (RRange "0" "5") RDigit) RDigit))
  | "S"%char =>
      Some (RGroup "S"
        (RAlt (RSeq (RLit "6") (RRange "0" "1"))
        (RAlt (RSeq (RRange "0" "5") RDigit)
              RDigit)))
  | "%"%char => Some (RLit "%")
  | _ => None
  end.

(** The format as a regular expression: a directive becomes its pattern,
    a run of whitespace becomes [\s+], any other character stands for
    itself.  [in_space] tells that the previous character was whitespace. *)
Fixpoint format_regex (in_space : bool) (fmt : list ascii) : option regex :=
  match fmt with
  | [] => Some REmpty
  | "%"%char :: d :: rest =>
      match directive_regex d, format_regex false rest with
      | Some r, Some rs => Some (RSeq r rs)
      | _, _ => None
      end
  | c :: rest =>
      if Ascii.eqb c "%" then None
      else if is_space c then
        if in_space then format_regex true rest
        else option_map (RSeq RSpaces) (format_regex true rest)
      else option_map (RSeq (RLit c)) (format_regex false rest)
  end.

Definition is_leap (y : Z) : bool :=
  ((y mod 4 =? 0) && (negb (y mod 100 =? 0) || (y mod 400 =? 0)))%bool.

Definition days_in_month (y m : Z) : Z :=
  if m =? 2 then (if is_leap y then 29 else 28)
  else if ((m =? 4) || (m =? 6) || (m =? 9) || (m =? 11))%bool then 30
  else 31.

(** [datetime.datetime(year, month, day, hour, minute, second)] *)
Definition datetime_new (y mo d h mi s : Z) : result datetime :=
  if negb ((1 <=? y) && (y <=? 9999)) then
    Err (PyExc ValueError ("year " ++ Z_repr y ++ " is out of range"))
  else if negb ((1 <=? mo) && (mo <=? 12)) then
    Err (PyExc ValueError "month must be in 1..12")
  else if negb ((1 <=? d) && (d <=? days_in_month y mo)) then
    Err (PyExc ValueError "day is out of range for month")
  else if negb ((0 <=? h) && (h <=? 23)) then
    Err (PyExc ValueError "hour must be in 0..23")
  else if negb ((0 <=? mi) && (mi <=? 59)) then
    Err (PyExc ValueError "minute must be in 0..59")
  else if negb ((0 <=? s) && (s <=? 59)) then
    Err (PyExc ValueError "second must be in 0..59")
  else Ok (mk_datetime y mo d h mi s).

Fixpoint group (n : ascii) (caps : captures) : option (list ascii) :=
  match caps with
  | (n', txt) :: caps' => if Ascii.eqb n n' then Some txt else group n caps'
  | [] => None
  end.

(** [int(found_dict[n])], or the default when the format has no such
    directive. *)
Definition group_int (n : ascii) (default : Z) (caps : captures) : Z :=
  match group n caps with
  | Some txt =>
      match int_literal (string_of_list_ascii txt) with
      | Some z => z
      | None => default
      end
  | None => default
  end.

(** [datetime.datetime.strptime(data, fmt)] *)
Definition strptime (data : value) (fmt : string) : result value :=
  match data with
  | VStr s =>
      match format_regex false (list_ascii_of_string fmt) with
      | None => Err (PyExc ValueError ("bad directive in format " ++ quote fmt))
      | Some r =>
          match re_match r (list_ascii_of_string s) with
          | None =>
              Err (PyExc ValueError
                     ("time data " ++ quote s ++ " does not match format " ++ quote fmt))
          | Some ([], caps) =>
              result_bind
                (datetime_new (group_int "Y" 1900 caps) (group_int "m" 1 caps)
                   (group_int "d" 1 caps) (group_int "H" 0 caps)
                   (group_int "M" 0 caps) (group_int "S" 0 caps))
                (fun d => Ok (VDateTime d))
          | Some (rest, _) =>
              Err (PyExc ValueError
                     ("unconverted data remains: " ++ string_of_list_ascii rest))
          end
      end
  | _ => Err (PyExc TypeError
                ("strptime() argument 1 must be str, not " ++ type_name data))
  end.

(** Zero-padded decimal of a non-negative number, at least [width] wide.
    ([%Y] is padded to four digits; the C library of some platforms does
    not pad years below 1000.) *)
Definition zpad (width : nat) (z : Z) : list ascii :=
  let ds := list_ascii_of_string (Z_repr z) in
  (repeat "0"%char (width - length ds) ++ ds)%list.

Definition directive_text (d : datetime) (c : ascii) : option (list ascii) :=
  match c with
  | "Y"%char => Some (zpad 4 (dt_year d))
  | "m"%char => Some (zpad 2 (dt_month d))
  | "d"%char => Some (zpad 2 (dt_day d))
  | "H"%char => Some (zpad 2 (dt_hour d))
  | "M"%char => Some (zpad 2 (dt_minute d))
  | "S"%char => Some (zpad 2 (dt_second d))
  | "%"%char => Some ["%"%char]
  | _ => None
  end.

Fixpoint strftime_chars (d : datetime) (fmt : list ascii) : option (list ascii) :=
  match fmt with
  | [] => Some []
  | "%"%char :: c :: rest =>
      match directive_text d c, strftime_chars d rest with
      | Some t, Some ts => Some (t ++ ts)%list
      | _, _ => None
      end
  | c :: rest => option_map (cons c) (strftime_chars d rest)
  end.

(** [d.strftime(fmt)] *)
Definition strftime (d : datetime) (fmt : string) : result value :=
  match strftime_chars d (list_ascii_of_string fmt) with
  | Some cs => Ok (VStr (string_of_list_ascii cs))
  | None => Err (PyExc ValueError "Invalid format string")
  end.

(** The format specification of a template of the form ["{:spec}"]. *)
Definition format_spec (template : string) : option string :=
  match list_ascii_of_string template with
  | "{"%char :: ":"%char :: rest =>
      match rev rest with
      | "}"%char :: body => Some (string_of_list_ascii (rev body))
      | _ => None
      end
  | _ => None
  end.

(** [template.format(arg)] for such a template with a non-empty
    specification: [arg.__format__(spec)]. *)
Definition str_format (template : string) (arg : value) : result value :=
  match format_spec template with
  | None => Err (PyExc ValueError "unsupported format template")
  | Some spec =>
      match arg with
      | VDateTime d => strftime d spec
      | VInt _ | VBool _ | VFloat _ | VStr _ =>
          Err (PyExc ValueError "Invalid format specifier")
      | _ => Err (PyExc TypeError
                    ("unsupported format string passed to "
                     ++ type_name arg ++ ".__format__"))
      end
  end.

(** ** [model.py]: the converter combinators *)

Section Converters.
Context {World : Type}.
Local Abbreviation Eff := (Eff World).
Local Abbreviation converter := (converter World).

(** The elements [for entry in lst] visits: the items of a list, the
    characters of a string, the keys of a dictionary (in the order of the
    finite map); nothing else among these values is iterable. *)
Definition py_iter (lst : value) : result (list value) :=
  match lst with
  | VList l => Ok l
  | VStr s => Ok (map (fun c => VStr (String c EmptyString)) (list_ascii_of_string s))
  | VDict d => Ok (map (fun kv => VStr kv.1) (map_to_list d))
  | _ => Err (PyExc TypeError (quote (type_name lst) ++ " object is not iterable"))
  end.

(** [[oftype(entry) for entry in lst]] *)
Fixpoint map_conv (oftype : converter) (l : list value) : Eff (list value) :=
  match l with
  | [] => ret []
  | entry :: l' =>
      let* y := oftype entry in
      let* ys := map_conv oftype l' in
      ret (y :: ys)
  end.

Definition JsonList (oftype : converter) : converter :=
  fun lst =>
    let* l := lift (py_iter lst) in
    let* ys := map_conv oftype l in
    ret (VList ys).

Definition Nullable (oftype : converter) : converter :=
  fun it => if is_None it then ret VNone else oftype it.

Definition PreProcessInt (oftype : converter) : converter :=
  fun it =>
    let* n := lift (py_int it) in
    oftype n.

Definition DATE_FORMAT : string := "%Y-%m-%d %H:%M:%S".

Definition DateConverter : converter :=
  fun val => lift (strptime val DATE_FORMAT).
End Converters.

(** ** The attribute model ([dictmodel]) *)

Section AttributeModel.
Context {World : Type}.
Local Abbreviation Eff := (Eff World).
Local Abbreviation converter := (converter World).

(** Modelled from the spec: the attribute descriptor of the [dictmodel]
    module, which is not among the sources.  A descriptor holds the
    converter and, when it differs from the declared field name, the raw
    JSON key ([name=...]). *)
Record attribute := mk_attribute {
  attr_type : converter;
  attr_name : option string }.

(** Modelled from the spec: [Attribute(type_, name=None)] of [dictmodel]. *)
Definition Attribute (type_ : converter) (name : option string) : attribute :=
  mk_attribute type_ name.

(** Modelled from the spec: a model type definition of [dictmodel], an
    ordered mapping from attribute name to descriptor. *)
Definition schema : Type := list (string * attribute).

(** Modelled from the spec: the source key of a [dictmodel] descriptor
    defaults to the field's declared name. *)
Definition source_key (field : string) (a : attribute) : string :=
  match attr_name a with
  | Some k => k
  | None => field
  end.

Fixpoint assoc {A} (k : string) (l : list (string * A)) : option A :=
  match l with
  | (k', a) :: l' => if String.eqb k k' then Some a else assoc k l'
  | [] => None
  end.

(** Modelled from the spec: field inheritance of [dictmodel]'s model
    classes.  The definition of a subclass is its parent's descriptors, each
    replaced by the subclass's own descriptor of the same name if there is
    one, followed by the subclass's new descriptors. *)
Definition inherit (parent own : schema) : schema :=
  (map (fun f => match assoc f.1 own with
                 | Some a => (f.1, a)
                 | None => f
                 end) parent
   ++ filter (fun f => assoc f.1 parent = None) own)%list.

(** Modelled from the spec: the field loop of [dictmodel]'s construction
    protocol.  The descriptors are visited in order; the first one whose
    key is missing or whose converter fails ends the construction. *)
Fixpoint construct_fields (fields : schema) (raw attrs : gmap string value)
    : Eff (gmap string value) :=
  match fields with
  | [] => ret attrs
  | (field, a) :: fields' =>
      match raw !! source_key field a with
      | None => raise (MissingField field)
      | Some v =>
          fun w =>
            match attr_type a v w with
            | (Ok x, w') => construct_fields fields' raw (<[field := x]> attrs) w'
            | (Err e, w') => (Err (FieldConversion field e), w')
            end
      end
  end.

(** Modelled from the spec: [construct(type_definition, raw_object)] of
    [dictmodel], producing an instance that exposes each attribute under
    its declared name. *)
Definition construct (cls : string) (fields : schema) (raw : gmap string value)
    : Eff value :=
  let* attrs := construct_fields fields raw ∅ in
  ret (VObj cls attrs).

(** Modelled from the spec: calling a [dictmodel] model class on a decoded
    JSON value, which is how a model class serves as a converter. *)
Definition model_call (cls : string) (fields : schema) : converter :=
  fun raw =>
    match raw with
    | VDict d => construct cls fields d
    | _ => raise (PyExc TypeError
                    (quote (type_name raw) ++ " object is not a mapping"))
    end.
End AttributeModel.
Arguments attribute : clear implicits.
Arguments schema : clear implicits.

(** ** [model.py]: the domain models *)

Section Models.
Context {World : Type} {RT : Runtime}.
Local Abbreviation converter := (converter World).

Definition int : converter := pure_conv py_int.
Definition str : converter := pure_conv py_str.
Definition float : converter := pure_conv py_float.
Definition bool_ : converter := pure_conv py_bool.
Definition Enum (E : Type) {PE : PyEnum E} : converter := pure_conv (Enum_call E).

Definition Score_attributes : schema World :=
  [ ("beatmap_id", Attribute str None);
    ("score", Attribute int None);
    ("maxcombo", Attribute int None);
    ("count50", Attribute int None);
    ("count100", Attribute int None);
    ("count300", Attribute int None);
    ("countmiss", Attribute int None);
    ("countkatu", Attribute int None);
    ("countgeki", Attribute int None);
    ("perfect", Attribute bool_ None);
    ("enabled_mods", Attribute int None);
    ("user_id", Attribute int None);
    ("date", Attribute DateConverter None);
    ("rank", Attribute str None);
    ("pp", Attribute float None) ].

Definition Score : converter := model_call "Score" Score_attributes.

(** The attributes the body of [class TeamScore(Score)] declares. *)
Definition TeamScore_own : schema World :=
  [ ("slot", Attribute int None);
    ("team", Attribute int None);
    ("passed", Attribute bool_ (Some "pass")) ].

Definition TeamScore_attributes : schema World :=
  inherit Score_attributes TeamScore_own.

Definition TeamScore : converter := model_call "TeamScore" TeamScore_attributes.

Definition User_attributes : schema World :=
  [ ("user_id", Attribute int None);
    ("username", Attribute str None);
    ("count300", Attribute int None);
    ("count100", Attribute int None);
    ("count50", Attribute int None);
    ("playcount", Attribute int None);
    ("ranked_score", Attribute int None);
    ("total_score", Attribute int None);
    ("pp_rank", Attribute int None);
    ("level", Attribute float None);
    ("pp_raw", Attribute float None);
    ("accuracy", Attribute float None);
    ("count_rank_ss", Attribute int None);
    ("count_rank_s", Attribute int None);
    ("count_rank_a", Attribute int None);
    ("country", Attribute str None);
    ("pp_country_rank", Attribute int None);
    ("events", Attribute (JsonList str) None) ].

Definition User : converter := model_call "User" User_attributes.

Definition Beatmap_attributes : schema World :=
  [ ("approved", Attribute (PreProcessInt (Enum BeatmapStatus.t)) None);
    ("approved_date", Attribute (Nullable DateConverter) None);
    ("last_update", Attribute DateConverter None);
    ("artist", Attribute str None);
    ("beatmap_id", Attribute int None);
    ("beatmapset_id", Attribute int None);
    ("bpm", Attribute float None);
    ("creator", Attribute str None);
    ("difficultyrating", Attribute float None);
    ("diff_size", Attribute float None);
    ("diff_overall", Attribute float None);
    ("diff_approach", Attribute float None);
    ("diff_drain", Attribute float None);
    ("hit_length", Attribute int None);
    ("source", Attribute str None);
    ("genre_id", Attribute (PreProcessInt (Enum BeatmapGenre.t)) None);
    ("language_id", Attribute (PreProcessInt (Enum BeatmapLanguage.t)) None);
    ("title", Attribute str None);
    ("total_length", Attribute int None);
    ("version", Attribute str None);
    ("file_md5", Attribute str None);
    ("mode", Attribute (PreProcessInt (Enum OsuMode.t)) None);
    ("tags", Attribute str None);
    ("favourite_count", Attribute int None);
    ("playcount", Attribute int None);
    ("passcount", Attribute int None);
    ("max_combo", Attribute (Nullable int) None) ].

Definition Beatmap : converter := model_call "Beatmap" Beatmap_attributes.

Definition MatchMetadata_attributes : schema World :=
  [ ("match_id", Attribute int None);
    ("name", Attribute str None);
    ("start_time", Attribute DateConverter None);
    ("end_time", Attribute (Nullable DateConverter) None) ].

Definition MatchMetadata : converter :=
  model_call "MatchMetadata" MatchMetadata_attributes.

Definition Game_attributes : schema World :=
  [ ("game_id", Attribute int None);
    ("start_time", Attribute DateConverter None);
    ("end_time", Attribute DateConverter None);
    ("beatmap_id", Attribute int None);
    ("play_mode", Attribute (PreProcessInt (Enum OsuMode.t)) None);
    ("match_type", Attribute str None);
    ("scoring_type", Attribute int None);
    ("team_type", Attribute int None);
    ("mods", Attribute int None);
    ("scores", Attribute (JsonList TeamScore) None) ].

Definition Game : converter := model_call "Game" Game_attributes.

Definition Match_attributes : schema World :=
  [ ("match", Attribute MatchMetadata None);
    ("games", Attribute (JsonList Game) None) ].

Definition Match : converter := model_call "Match" Match_attributes.
End Models.

(** ** Module namespaces and name resolution *)

Section Namespaces.
Context {World : Type} {RT : Runtime}.
Local Abbreviation Eff := (Eff World).
Local Abbreviation converter := (converter World).

(** What a global name can be bound to: a class or function used as a
    converter, a converter combinator, or any other object. *)
Inductive binding :=
| BConverter (c : converter)
| BCombinator (f : converter -> converter)
| BObject (v : value).

Definition namespace : Type := list (string * binding).

(** The names of the [builtins] module. *)
Definition builtin_names : list string :=
  [ "abs"; "aiter"; "all"; "anext"; "any"; "ascii"; "bin"; "bool";
    "breakpoint"; "bytearray"; "bytes"; "callable"; "chr"; "classmethod";
    "compile"; "complex"; "copyright"; "credits"; "delattr"; "dict"; "dir";
    "divmod"; "enumerate"; "eval"; "exec"; "exit"; "filter"; "float";
    "format"; "frozenset"; "getattr"; "globals"; "hasattr"; "hash"; "help";
    "hex"; "id"; "input"; "int"; "isinstance"; "issubclass"; "iter"; "len";
    "license"; "list"; "locals"; "map"; "max"; "memoryview"; "min"; "next";
    "object"; "oct"; "open"; "ord"; "pow"; "print"; "property"; "quit";
    "range"; "repr"; "reversed"; "round"; "set"; "setattr"; "slice";
    "sorted"; "staticmethod"; "str"; "sum"; "super"; "tuple"; "type";
    "vars"; "zip"; "__import__"; "__build_class__"; "__debug__"; "__doc__";
    "__loader__"; "__name__"; "__package__"; "__spec__";
    "None"; "True"; "False"; "Ellipsis"; "NotImplemented";
    "ArithmeticError"; "AssertionError"; "AttributeError"; "BaseException";
    "BaseExceptionGroup"; "BlockingIOError"; "BrokenPipeError";
    "BufferError"; "BytesWarning"; "ChildProcessError";
    "ConnectionAbortedError"; "ConnectionError"; "ConnectionRefusedError";
    "ConnectionResetError"; "DeprecationWarning"; "EOFError";
    "EncodingWarning"; "EnvironmentError"; "Exception"; "ExceptionGroup";
    "FileExistsError"; "FileNotFoundError"; "FloatingPointError";
    "FutureWarning"; "GeneratorExit"; "IOError"; "ImportError";
    "ImportWarning"; "IndentationError"; "IndexError"; "InterruptedError";
    "IsADirectoryError"; "KeyError"; "KeyboardInterrupt"; "LookupError";
    "MemoryError"; "ModuleNotFoundError"; "NameError"; "NotADirectoryError";
    "NotImplementedError"; "OSError"; "OverflowError";
    "PendingDeprecationWarning"; "PermissionError"; "ProcessLookupError";
    "PythonFinalizationError"; "RecursionError"; "ReferenceError";
    "ResourceWarning"; "RuntimeError"; "RuntimeWarning";
    "StopAsyncIteration"; "StopIteration"; "SyntaxError"; "SyntaxWarning";
    "SystemError"; "SystemExit"; "TabError"; "TimeoutError"; "TypeError";
    "UnboundLocalError"; "UnicodeDecodeError"; "UnicodeEncodeError";
    "UnicodeError"; "UnicodeTranslateError"; "UnicodeWarning";
    "UserWarning"; "ValueError"; "Warning"; "ZeroDivisionError" ].

Definition name_in (n : string) (l : list string) : bool :=
  existsb (String.eqb n) l.

(** Reading a name that is not local to the function: the module's
    globals, then the builtins, else [NameError]. *)
Definition load_global (G : namespace) (n : string) : result binding :=
  match assoc n G with
  | Some b => Ok b
  | None =>
      if name_in n builtin_names then Ok (BObject (VOpaque n))
      else Err (PyExc NameError ("name " ++ quote n ++ " is not defined"))
  end.

Definition not_callable (v : value) : error :=
  PyExc TypeError (quote (type_name v) ++ " object is not callable").

(** A binding used as a converter, that is, called on a raw value.  A
    combinator called on a raw value returns its inner function; the other
    objects of these modules are not callable. *)
Definition as_converter (b : binding) : converter :=
  match b with
  | BConverter c => c
  | BCombinator _ => fun _ => ret (VOpaque "function")
  | BObject v => fun _ => raise (not_callable v)
  end.

(** A global used as the converter argument of a request, as [Match] in
    [get_match]. *)
Definition load_converter (G : namespace) (n : string) : result converter :=
  result_bind (load_global G n) (fun b => Ok (as_converter b)).

(** A binding called on a converter, as [JsonList] in [JsonList(User)].
    Only a combinator returns a converter. *)
Definition call_on_converter (b : binding) (c : converter) : result converter :=
  match b with
  | BCombinator f => Ok (f c)
  | BConverter _ => Err (PyExc TypeError "the argument is not a raw value")
  | BObject v => Err (not_callable v)
  end.

(** The globals of [osuapi.model] once its body has run, in binding
    order. *)
Definition model_globals : namespace :=
  [ ("__name__", BObject (VStr "osuapi.model"));
    ("__doc__", BObject (VStr "Different classes to parse dicts/lists returned from json into meaningful data objects."));
    ("__package__", BObject (VStr "osuapi"));
    ("__loader__", BObject (VOpaque "__loader__"));
    ("__spec__", BObject (VOpaque "__spec__"));
    ("__file__", BObject (VOpaque "__file__"));
    ("__cached__", BObject (VOpaque "__cached__"));
    ("__builtins__", BObject (VOpaque "builtins"));
    ("datetime", BObject (VOpaque "datetime"));
    ("Enum", BObject (VOpaque "enum.Enum"));
    ("AttributeModel", BObject (VOpaque "osuapi.dictmodel.AttributeModel"));
    ("Attribute", BObject (VOpaque "osuapi.dictmodel.Attribute"));
    ("JsonList", BCombinator JsonList);
    ("Nullable", BCombinator Nullable);
    ("PreProcessInt", BCombinator PreProcessInt);
    ("DateConverter", BConverter DateConverter);
    ("OsuMode", BConverter (Enum OsuMode.t));
    ("Score", BConverter Score);
    ("TeamScore", BConverter TeamScore);
    ("User", BConverter User);
    ("BeatmapStatus", BConverter (Enum BeatmapStatus.t));
    ("BeatmapGenre", BConverter (Enum BeatmapGenre.t));
    ("BeatmapLanguage", BConverter (Enum BeatmapLanguage.t));
    ("Beatmap", BConverter Beatmap);
    ("MatchMetadata", BConverter MatchMetadata);
    ("Game", BConverter Game);
    ("Match", BConverter Match) ].

(** [User.__str__]: the body is [return username], and [username] is not
    a local of the method, so it is read as a global of the module. *)
Definition User___str__ (self : value) : Eff value :=
  let* b := lift (load_global model_globals "username") in
  match b with
  | BObject (VStr s) => ret (VStr s)
  | _ => raise (PyExc TypeError "__str__ returned non-string")
  end.

(** [from <modname> import n1, n2, ...]: each name in turn is read from
    the module and bound. *)
Fixpoint import_from (modname : string) (exports : namespace) (names : list string)
    : result namespace :=
  match names with
  | [] => Ok []
  | n :: names' =>
      match assoc n exports with
      | Some b =>
          result_bind (import_from modname exports names')
            (fun bs => Ok ((n, b) :: bs))
      | None =>
          Err (PyExc ImportError
                 ("cannot import name " ++ quote n ++ " from " ++ quote modname))
      end
  end.

(** The globals of [osuapi.osu] once its body has run.  The first statement
    is the import from [.model]; [rest] is what the remaining statements
    bind ([endpoints], the names of [.connectors], [warnings], [OsuApi]). *)
Definition osu_globals (rest : namespace) : result namespace :=
  result_bind
    (import_from "osuapi.model" model_globals
       ["User"; "SoloScore"; "JsonList"; "OsuMode"; "Beatmap"; "Match"])
    (fun bs => Ok (bs ++ rest)%list).
End Namespaces.
Arguments binding : clear implicits.
Arguments namespace : clear implicits.

(** ** [osu.py]: the client *)

(** The constants of the [endpoints] module. *)
Record Endpoints := {
  USER : string; USER_BEST : string; USER_RECENT : string;
  SCORES : string; BEATMAPS : string; MATCH : string }.

(** A connector: [process_request(endpoint, data, type_)] performs the
    request and converts the decoded response with [type_]. *)
Record Connector (World : Type) := {
  process_request :
    string -> gmap string value -> converter World -> Eff World value }.
Arguments process_request {World} c endpoint data type_.

Record OsuApi (World : Type) := {
  connector : Connector World;
  key : value }.
Arguments connector {World} o.
Arguments key {World} o.

Section Client.
Context {World : Type} {RT : Runtime}.
Context (endpoints : Endpoints).
(** The globals of the module the methods are defined in. *)
Context (G : namespace World).
Local Abbreviation Eff := (Eff World).
Local Abbreviation converter := (converter World).

(** [{k: v for k, v in data.items() if v is not None}] *)
Definition request_params (data : gmap string value) : gmap string value :=
  filter (fun kv => is_None kv.2 = false) data.

Definition _make_req (self : OsuApi World) (endpoint : string)
    (data : gmap string value) (type_ : converter) : Eff value :=
  process_request (connector self) endpoint (request_params data) type_.

Definition _username_type (username : value) : value :=
  match username with
  | VNone => VNone
  | VInt _ | VBool _ => VStr "int"
  | _ => VStr "string"
  end.

(** [obj.value] *)
Definition get_value (obj : value) : result value :=
  match obj with
  | VEnum _ _ z => Ok (VInt z)
  | VObj _ attrs =>
      match attrs !! "value" with
      | Some v => Ok v
      | None => Err (PyExc AttributeError
                       (quote (type_name obj) ++ " object has no attribute 'value'"))
      end
  | _ => Err (PyExc AttributeError
                (quote (type_name obj) ++ " object has no attribute 'value'"))
  end.

(** A keyword argument the caller may leave out, with its default. *)
Definition kwarg (given : option value) (default : value) : value :=
  match given with
  | Some v => v
  | None => default
  end.

(** [dict(k1=v1, ...)] *)
Definition dict (items : list (string * value)) : gmap string value :=
  list_to_map items.

(** [JsonList(<name>)]: both names are read from the globals, then the
    first is called on the second. *)
Definition JsonList_of (n : string) : Eff converter :=
  let* jl := lift (load_global G "JsonList") in
  let* c := lift (load_converter G n) in
  lift (call_on_converter jl c).

Definition get_user (self : OsuApi World) (username : value)
    (mode : option value) : Eff value :=
  let mode := kwarg mode (enum_to_value OsuMode.osu) in
  let* m := lift (get_value mode) in
  let data := dict [ ("k", key self); ("u", username);
                     ("type", _username_type username); ("m", m) ] in
  let* type_ := JsonList_of "User" in
  _make_req self (USER endpoints) data type_.

Definition get_user_best (self : OsuApi World) (username : value)
    (mode limit : option value) : Eff value :=
  let mode := kwarg mode (enum_to_value OsuMode.osu) in
  let limit := kwarg limit (VInt 50) in
  let* m := lift (get_value mode) in
  let data := dict [ ("k", key self); ("u", username);
                     ("type", _username_type username); ("m", m);
                     ("limit", limit) ] in
  let* type_ := JsonList_of "SoloScore" in
  _make_req self (USER_BEST endpoints) data type_.

Definition get_user_recent (self : OsuApi World) (username : value)
    (mode limit : option value) : Eff value :=
  let mode := kwarg mode (enum_to_value OsuMode.osu) in
  let limit := kwarg limit (VInt 10) in
  let* m := lift (get_value mode) in
  let data := dict [ ("k", key self); ("u", username);
                     ("type", _username_type username); ("m", m);
                     ("limit", limit) ] in
  let* type_ := JsonList_of "Score" in
  _make_req self (USER_RECENT endpoints) data type_.

Definition get_scores (self : OsuApi World) (beatmap_id : value)
    (username mode mods limit : option value) : Eff value :=
  let username := kwarg username VNone in
  let mode := kwarg mode (enum_to_value OsuMode.osu) in
  let mods := kwarg mods VNone in
  let limit := kwarg limit (VInt 50) in
  let* m := lift (get_value mode) in
  let* mods_value := lift (get_value mods) in
  let data := dict [ ("k", key self); ("b", beatmap_id); ("u", username);
                     ("type", _username_type username); ("m", m);
                     ("mods", mods_value); ("limit", limit) ] in
  let* type_ := JsonList_of "Score" in
  _make_req self (SCORES endpoints) data type_.

(** The template of the [since] parameter in [get_beatmaps]. *)
Definition since_template : string := "{:%Y-%m-%d %H:%M:%S}".

Definition get_beatmaps (self : OsuApi World)
    (since beatmapset_id beatmap_id username mode include_converted
       beatmap_hash limit : option value) : Eff value :=
  let since := kwarg since VNone in
  let beatmapset_id := kwarg beatmapset_id VNone in
  let beatmap_id := kwarg beatmap_id VNone in
  let username := kwarg username VNone in
  let mode := kwarg mode (enum_to_value OsuMode.osu) in
  let include_converted := kwarg include_converted (VBool false) in
  let beatmap_hash := kwarg beatmap_hash VNone in
  let limit := kwarg limit (VInt 500) in
  let* since_text :=
    if is_None since then ret VNone
    else lift (str_format since_template since) in
  let* m := lift (get_value mode) in
  let data := dict [ ("k", key self); ("s", beatmapset_id); ("b", beatmap_id);
                     ("u", username); ("since", since_text);
                     ("type", _username_type username); ("m", m);
                     ("a", include_converted); ("h", beatmap_hash);
                     ("limit", limit) ] in
  let* type_ := JsonList_of "Beatmap" in
  _make_req self (BEATMAPS endpoints) data type_.

End Client.

(** Calling a method of the client needs the module [osuapi.osu] to have
    been imported: the method then runs with the module's globals. *)
Definition with_osu_module {World A} {RT : Runtime} (rest : namespace World)
    (method : namespace World -> Eff World A) : Eff World A :=
  let* G := lift (osu_globals rest) in
  method G.

(** ** Vocabulary of the specifications *)

(** The wire table of an enumeration: integer code and member name, in
    definition order. *)
Definition wire_table (E : Type) {PE : PyEnum E} : list (Z * string) :=
  map (fun m => (enum_value m, enum_name m)) enum_members.

(** An enumeration honours a wire table when the table is exactly its
    members, every code of the table converts to the member of that name,
    and every other integer is refused. *)
Definition wire_contract (E : Type) {PE : PyEnum E} {RT : Runtime}
    (table : list (Z * string)) : Prop :=
  wire_table E = table
  /\ (forall z n, In (z, n) table ->
        Enum_call E (VInt z) = Ok (VEnum enum_qualname n z))
  /\ (forall z, ~ In z (map fst table) ->
        Enum_call E (VInt z)
        = Err (PyExc ValueError (Z_repr z ++ " is not a valid " ++ enum_qualname))).

Section ListSpec.
Context {World : Type}.

(** [converts_each T l w ys w']: starting in [w], [T] is applied to the
    elements of [l] from left to right, each application succeeds, the
    results are [ys] in the same order, and the world ends as [w']. *)
Inductive converts_each (T : converter World)
    : list value -> World -> list value -> World -> Prop :=
| converts_nil w : converts_each T [] w [] w
| converts_cons a l w y w1 ys w' :
    T a w = (Ok y, w1) ->
    converts_each T l w1 ys w' ->
    converts_each T (a :: l) w (y :: ys) w'.

(** [fails_at T l w e w']: applied from left to right starting in [w],
    [T] succeeds on the elements before some element and fails on that one
    with [e], leaving the world as [w']. *)
Inductive fails_at (T : converter World)
    : list value -> World -> error -> World -> Prop :=
| fails_here a l w e w' :
    T a w = (Err e, w') ->
    fails_at T (a :: l) w e w'
| fails_later a l w y w1 e w' :
    T a w = (Ok y, w1) ->
    fails_at T l w1 e w' ->
    fails_at T (a :: l) w e w'.
End ListSpec.

(** What a regular expression matches: [rsem r txt c c'] holds when [r]
    matches exactly the text [txt], turning the groups [c] into [c']. *)
Inductive rsem : regex -> list ascii -> captures -> captures -> Prop :=
| rsem_empty c : rsem REmpty [] c c
| rsem_lit x c : rsem (RLit x) [x] c c
| rsem_digit x c : is_digit x = true -> rsem RDigit [x] c c
| rsem_range lo hi x c : ascii_in lo hi x = true -> rsem (RRange lo hi) [x] c c
| rsem_spaces x ws c :
    is_space x = true -> forallb is_space ws = true ->
    rsem RSpaces (x :: ws) c c
| rsem_seq r1 r2 t1 t2 c c1 c2 :
    rsem r1 t1 c c1 -> rsem r2 t2 c1 c2 -> rsem (RSeq r1 r2) (t1 ++ t2) c c2
| rsem_alt_l r1 r2 t c c' : rsem r1 t c c' -> rsem (RAlt r1 r2) t c c'
| rsem_alt_r r1 r2 t c c' : rsem r2 t c c' -> rsem (RAlt r1 r2) t c c'
| rsem_group n r t c c' : rsem r t c c' -> rsem (RGroup n r) t c ((n, t) :: c').

(** The texts of the date format, field by field. *)












(** ** A runtime and worlds for the concrete examples *)

(** This runtime reads the float literals that are integer literals, and
    prints the values it cannot print as their type name in brackets. *)
Definition integral_runtime : Runtime :=
  {| float_of_str := fun s =>
       match int_literal s with
       | Some z => float_of_Z z
       | None => None
       end;
     str_other := fun v => "<" ++ type_name v ++ ">" |}.

(** A converter that counts its invocations in the world and always
    fails. *)
Definition counting_failure : converter nat :=
  fun _ n => (Err (PyExc ValueError "refused"), S n).

(** A converter that counts its invocations and returns its argument. *)
Definition counting_identity : converter nat :=
  fun v n => (Ok v, S n).

(** A connector that performs no request and answers [None]. *)
Definition silent_connector : Connector unit :=
  {| process_request := fun _ _ _ => ret VNone |}.

Definition example_endpoints : Endpoints :=
  {| USER := "get_user"; USER_BEST := "get_user_best";
     USER_RECENT := "get_user_recent"; SCORES := "get_scores";
     BEATMAPS := "get_beatmaps"; MATCH := "get_match" |}.

Definition example_api : OsuApi unit :=
  {| connector := silent_connector; key := VStr "secret" |}.




(** A raw team score as the API sends it: every value is a string. *)
Definition raw_team_score : gmap string value :=
  list_to_map [ ("beatmap_id", VStr "75"); ("score", VStr "1000000");
                ("maxcombo", VStr "314"); ("count50", VStr "1");
                ("count100", VStr "2"); ("count300", VStr "300");
                ("countmiss", VStr "0"); ("countkatu", VStr "4");
                ("countgeki", VStr "5"); ("perfect", VStr "1");
                ("enabled_mods", VStr "0"); ("user_id", VStr "2");
                ("date", VStr "2014-01-02 03:04:05"); ("rank", VStr "S");
                ("pp", VStr "0"); ("slot", VStr "3"); ("team", VStr "2");
                ("pass", VStr "1") ].

(** A raw user. *)
Definition raw_user : gmap string value :=
  list_to_map [ ("user_id", VStr "2"); ("username", VStr "peppy");
                ("count300", VStr "300"); ("count100", VStr "100");
                ("count50", VStr "50"); ("playcount", VStr "9");
                ("ranked_score", VStr "1"); ("total_score", VStr "2");
                ("pp_rank", VStr "3"); ("level", VStr "100");
                ("pp_raw", VStr "0"); ("accuracy", VStr "99");
                ("count_rank_ss", VStr "1"); ("count_rank_s", VStr "2");
                ("count_rank_a", VStr "3"); ("country", VStr "AU");
                ("pp_country_rank", VStr "1"); ("events", VList []) ].

(** ** [model.py]: derived properties and [__repr__] *)

(** [getattr(obj, name)] for the attributes an instance holds and for the
    [value] and [name] of an enumeration member.  [__module__] is the
    module the model classes are defined in.  Methods and other attributes
    found on the class are not values of this model. *)
Definition py_getattr (obj : value) (name : string) : result value :=
  let missing :=
    Err (PyExc AttributeError
           (quote (type_name obj) ++ " object has no attribute " ++ quote name)) in
  match obj with
  | VObj _ attrs =>
      match attrs !! name with
      | Some v => Ok v
      | None =>
          if String.eqb name "__module__" then Ok (VStr "osuapi.model")
          else missing
      end
  | VEnum _ n z =>
      if String.eqb name "value" then Ok (VInt z)
      else if String.eqb name "name" then Ok (VStr n)
      else missing
  | _ => missing
  end.

(** An [int] or a [bool] as the integer it is. *)
Definition as_integer (v : value) : option Z :=
  match v with
  | VInt z => Some z
  | VBool b => Some (if b then 1 else 0)
  | _ => None
  end.

(** A number as a double, for arithmetic with a [float]. *)
Definition as_double (v : value) : option (result spec_float) :=
  match v with
  | VFloat f => Some (Ok f)
  | _ =>
      match as_integer v with
      | Some z =>
          Some match float_of_Z z with
               | Some f => Ok f
               | None => Err (PyExc OverflowError "int too large to convert to float")
               end
      | None => None
      end
  end.

(** [a + b] *)
Definition py_add (a b : value) : result value :=
  let unsupported :=
    Err (PyExc TypeError
           ("unsupported operand type(s) for +: " ++ quote (type_name a)
            ++ " and " ++ quote (type_name b))) in
  match as_integer a, as_integer b with
  | Some x, Some y => Ok (VInt (x + y))
  | _, _ =>
      match a, b with
      | VStr s, VStr t => Ok (VStr (s ++ t))
      | VList l, VList m => Ok (VList (l ++ m)%list)
      | _, _ =>
          match as_double a, as_double b with
          | Some fa, Some fb =>
              result_bind fa (fun x =>
              result_bind fb (fun y => Ok (VFloat (SFadd 53 1024 x y))))
          | _, _ => unsupported
          end
      end
  end.

(** The property [User.total_hits]:
    [self.count300 + self.count100 + self.count50]. *)
Definition User_total_hits (self : value) : result value :=
  result_bind (py_getattr self "count300") (fun c300 =>
  result_bind (py_getattr self "count100") (fun c100 =>
  result_bind (py_add c300 c100) (fun s =>
  result_bind (py_getattr self "count50") (fun c50 =>
  py_add s c50)))).

Section Formatting.
Context {RT : Runtime}.

(** A replacement field of the form [0.attr] with no conversion and no
    format specification: the text of [getattr(obj, attr)].  Other forms
    of field do not occur in the package. *)
Definition format_field (obj : value) (field : list ascii) : result (list ascii) :=
  match field with
  | "0"%char :: "."%char :: attr =>
      if existsb (fun c => existsb (Ascii.eqb c) [ "."; "["; "!"; ":" ]%char) attr
      then Err (PyExc ValueError "unsupported replacement field")
      else
        result_bind (py_getattr obj (string_of_list_ascii attr)) (fun v =>
        result_bind (py_str v) (fun t =>
        match t with
        | VStr s => Ok (list_ascii_of_string s)
        | _ => Err (PyExc TypeError "__format__ must return a str")
        end))
  | _ => Err (PyExc ValueError "unsupported replacement field")
  end.

(** Formatting from left to right.  [field] holds, reversed, the
    characters read since the opening brace of the current field. *)
Fixpoint format_chars (obj : value) (field : option (list ascii))
    (cs : list ascii) : result (list ascii) :=
  match cs with
  | [] =>
      match field with
      | None => Ok []
      | Some _ => Err (PyExc ValueError "expected '}' before end of string")
      end
  | c :: cs' =>
      match field with
      | None =>
          if Ascii.eqb c "{" then
            match cs' with
            | c' :: cs'' =>
                if Ascii.eqb c' "{"
                then result_bind (format_chars obj None cs'')
                       (fun out => Ok ("{"%char :: out))
                else format_chars obj (Some []) cs'
            | [] => format_chars obj (Some []) cs'
            end
          else if Ascii.eqb c "}" then
            match cs' with
            | c' :: cs'' =>
                if Ascii.eqb c' "}"
                then result_bind (format_chars obj None cs'')
                       (fun out => Ok ("}"%char :: out))
                else Err (PyExc ValueError "Single '}' encountered in format string")
            | [] => Err (PyExc ValueError "Single '}' encountered in format string")
            end
          else result_bind (format_chars obj None cs') (fun out => Ok (c :: out))
      | Some acc =>
          if Ascii.eqb c "}" then
            result_bind (format_field obj (rev acc)) (fun txt =>
            result_bind (format_chars obj None cs') (fun out =>
            Ok (txt ++ out)%list))
          else format_chars obj (Some (c :: acc)) cs'
      end
  end.

(** [template.format(obj)] *)
Definition format_0 (template : string) (obj : value) : result value :=
  result_bind (format_chars obj None (list_ascii_of_string template))
    (fun out => Ok (VStr (string_of_list_ascii out))).

Definition Score___repr__ (self : value) : result value :=
  format_0 "<{0.__module__}.Score user_id={0.user_id} beatmap_id={0.beatmap_id} date={0.date}>" self.

Definition User___repr__ (self : value) : result value :=
  format_0 "<{0.__module__}.User username={0.username} user_id={0.user_id}>" self.

Definition Beatmap___repr__ (self : value) : result value :=
  format_0 "<{0.__module__}.Beatmap title={0.title} creator={0.creator} id={0.beatmap_id}>" self.

Definition MatchMetadata___repr__ (self : value) : result value :=
  format_0 "<{0.__module__}.MatchMetadata id={0.match_id} name={0.name} start_time={0.start_time}>" self.
End Formatting.

(** ** Vocabulary of the further properties *)

(** The JSON keys a model type reads, in declaration order. *)
Definition source_keys {World : Type} (fields : schema World) : list string :=
  map (fun f => source_key f.1 f.2) fields.

(** The attributes whose JSON key is not their name. *)
Definition renamed_attributes {World : Type} (fields : schema World)
    : list (string * string) :=
  map (fun f => (f.1, source_key f.1 f.2))
    (filter (fun f => source_key f.1 f.2 <> f.1) fields).


(** The globals of such a module. *)
Definition repaired_globals {World : Type} {RT : Runtime} : namespace World :=
  [ ("User", BConverter User); ("JsonList", BCombinator JsonList);
    ("Score", BConverter Score); ("Beatmap", BConverter Beatmap);
    ("Match", BConverter Match) ].

(** A connector that performs no request and answers with the parameters
    it was given. *)
Definition echo_connector : Connector unit :=
  {| process_request := fun _ data _ => ret (VDict data) |}.

Definition echo_api : OsuApi unit :=
  {| connector := echo_connector; key := VStr "secret" |}.

(** The values JSON decoding produces. *)
Definition json_value (v : value) : bool :=
  match v with
  | VNone | VBool _ | VInt _ | VFloat _ | VStr _ | VList _ | VDict _ => true
  | _ => false
  end.

(** The code of every member, as an integer or written in decimal, is
    converted back to that member. *)
Definition code_round_trip {World : Type} (E : Type) {PE : PyEnum E}
    {RT : Runtime} : Prop :=
  forall (m : E) (w : World),
    PreProcessInt (Enum E) (VInt (enum_value m)) w = (Ok (enum_to_value m), w)
    /\ PreProcessInt (Enum E) (VStr (Z_repr (enum_value m))) w
       = (Ok (enum_to_value m), w).

(** No two members share a code or a name. *)
Definition distinct_members (E : Type) {PE : PyEnum E} : Prop :=
  forall m m' : E,
    (enum_value m = enum_value m' -> m = m')
    /\ (enum_name m = enum_name m' -> m = m').

(** * Verification *)

(** ** Enumerations *)

Section EnumFacts.
Context (E : Type) {PE : PyEnum E} {RT : Runtime}.

Lemma Enum_call_int (z : Z) :
  Enum_call E (VInt z)
  = match enum_lookup E z with
    | Some m => Ok (enum_to_value m)
    | None => Err (PyExc ValueError (Z_repr z ++ " is not a valid " ++ enum_qualname))
    end.
Proof. reflexivity. Qed.

Lemma enum_lookup_Some (z : Z) (m : E) :
  enum_lookup E z = Some m -> enum_value m = z /\ In m enum_members.
Proof.
  unfold enum_lookup. intros Hf.
  apply find_some in Hf as [Hin Heq].
  split; [lia | exact Hin].
Qed.

Lemma enum_lookup_None (z : Z) :
  ~ In z (map fst (wire_table E)) -> enum_lookup E z = None.
Proof.
  unfold enum_lookup, wire_table. intros Hout.
  destruct (find _ _) as [m|] eqn:Hf; [|reflexivity].
  apply find_some in Hf as [Hin Heq].
  exfalso. apply Hout.
  rewrite map_map. apply in_map_iff. exists m. simpl. split; [lia | exact Hin].
Qed.

Lemma Enum_call_outside (z : Z) :
  ~ In z (map fst (wire_table E)) ->
  Enum_call E (VInt z)
  = Err (PyExc ValueError (Z_repr z ++ " is not a valid " ++ enum_qualname)).
Proof. intros Hout. rewrite Enum_call_int, enum_lookup_None; auto. Qed.
End EnumFacts.

Ltac table_cases H :=
  repeat (destruct H as [H | H]; [inversion H; subst; reflexivity |]);
  destruct H.

(** C1.  The four enumerations carry exactly the wire codes: game mode 0-3,
    beatmap status -2..3 with 1 = ranked, genre 0-10 without 8, language
    0-11.  Each code converts to the member of its name, and every integer
    outside an enumeration's table (99 for the beatmap status, 8 for the
    genre) is refused with [ValueError] instead of a default member. *)
Theorem enum_wire_codes {RT : Runtime} :
  wire_contract OsuMode.t
    [(0, "osu"); (1, "taiko"); (2, "ctb"); (3, "mania")]
  /\ wire_contract BeatmapStatus.t
       [(-2, "graveyard"); (-1, "wip"); (0, "pending"); (1, "ranked");
        (2, "approved"); (3, "qualified")]
  /\ wire_contract BeatmapGenre.t
       [(0, "any"); (1, "unspecified"); (2, "video_game"); (3, "anime");
        (4, "rock"); (5, "pop"); (6, "other"); (7, "novelty");
        (9, "hip_hop"); (10, "electronic")]
  /\ wire_contract BeatmapLanguage.t
       [(0, "any"); (1, "other"); (2, "english"); (3, "japanese");
        (4, "chinese"); (5, "instrumental"); (6, "korean"); (7, "french");
        (8, "german"); (9, "swedish"); (10, "spanish"); (11, "italian")]
  /\ Enum_call BeatmapStatus.t (VInt 1) = Ok (VEnum "BeatmapStatus" "ranked" 1)
  /\ Enum_call BeatmapStatus.t (VInt 99)
     = Err (PyExc ValueError "99 is not a valid BeatmapStatus")
  /\ Enum_call BeatmapGenre.t (VInt 8)
     = Err (PyExc ValueError "8 is not a valid BeatmapGenre").
Proof.
  repeat split; try reflexivity;
    try (intros z n Hin; simpl in Hin; table_cases Hin);
    try (intros z Hout; apply Enum_call_outside; exact Hout).
Qed.

Lemma enum_wire_codes_witness :
  Enum_call (RT := integral_runtime) BeatmapStatus.t (VInt 99)
  = Err (PyExc ValueError "99 is not a valid BeatmapStatus")
  /\ Enum_call (RT := integral_runtime) OsuMode.t (VInt 4)
     = Err (PyExc ValueError "4 is not a valid OsuMode").
Proof.
  destruct (@enum_wire_codes integral_runtime)
    as ([_ [_ Hmode]] & [_ [_ Hstatus]] & _).
  split.
  - apply Hstatus. simpl. intuition lia.
  - apply Hmode. simpl. intuition lia.
Defined.

(** ** The converter combinators *)

Lemma is_None_true (v : value) : is_None v = true <-> v = VNone.
Proof. destruct v; simpl; split; congruence. Qed.

(** C3.  For every converter [T], [Nullable T] answers [None] to [None]
    without running [T] (the world is untouched, whatever [T] would do to
    it), and on any other input it is [T] itself, failures included. *)
Theorem Nullable_spec {World : Type} (T : converter World) :
  (forall w, Nullable T VNone w = (Ok VNone, w))
  /\ (forall it w, it <> VNone -> Nullable T it w = T it w).
Proof.
  split.
  - reflexivity.
  - intros it w Hne. unfold Nullable.
    destruct (is_None it) eqn:Hn; [|reflexivity].
    apply is_None_true in Hn. contradiction.
Qed.

Lemma Nullable_spec_witness :
  Nullable counting_failure VNone 0%nat = (Ok VNone, 0%nat)
  /\ counting_failure VNone 0%nat = (Err (PyExc ValueError "refused"), 1%nat)
  /\ Nullable counting_failure (VInt 7) 0%nat
     = (Err (PyExc ValueError "refused"), 1%nat)
  /\ Nullable counting_identity (VInt 7) 0%nat = (Ok (VInt 7), 1%nat).
Proof.
  split; [|split; [|split]].
  - apply (proj1 (Nullable_spec counting_failure)).
  - reflexivity.
  - rewrite (proj2 (Nullable_spec counting_failure)); [reflexivity | discriminate].
  - rewrite (proj2 (Nullable_spec counting_identity)); [reflexivity | discriminate].
Defined.

Section JsonListFacts.
Context {World : Type}.
Implicit Types (T : converter World) (l ys : list value) (w : World).

Lemma map_conv_ok T l w ys w' :
  map_conv T l w = (Ok ys, w') -> converts_each T l w ys w'.
Proof.
  revert w ys. induction l as [|a l IH]; intros w ys; simpl.
  - unfold ret. intros [= <- <-]. constructor.
  - unfold bind at 1. destruct (T a w) as [[y|e] w1] eqn:Ha; [|discriminate].
    unfold bind at 1. destruct (map_conv T l w1) as [[zs|e] w2] eqn:Hl; [|discriminate].
    unfold ret. intros [= <- <-].
    econstructor; eauto.
Qed.

Lemma map_conv_err T l w e w' :
  map_conv T l w = (Err e, w') -> fails_at T l w e w'.
Proof.
  revert w. induction l as [|a l IH]; intros w; simpl.
  - unfold ret. discriminate.
  - unfold bind at 1. destruct (T a w) as [[y|e1] w1] eqn:Ha.
    + unfold bind at 1. destruct (map_conv T l w1) as [[zs|e2] w2] eqn:Hl.
      * unfold ret. discriminate.
      * intros [= <- <-]. eapply fails_later; eauto.
    + intros [= <- <-]. apply fails_here. exact Ha.
Qed.

Lemma converts_each_run T l w ys w' :
  converts_each T l w ys w' -> map_conv T l w = (Ok ys, w').
Proof.
  induction 1 as [|a l w y w1 ys w' Ha _ IH]; simpl; [reflexivity|].
  unfold bind at 1. rewrite Ha. unfold bind at 1. rewrite IH. reflexivity.
Qed.

Lemma fails_at_run T l w e w' :
  fails_at T l w e w' -> map_conv T l w = (Err e, w').
Proof.
  induction 1 as [a l w e w' Ha | a l w y w1 e w' Ha _ IH]; simpl.
  - unfold bind at 1. rewrite Ha. reflexivity.
  - unfold bind at 1. rewrite Ha. unfold bind at 1. rewrite IH. reflexivity.
Qed.

Lemma converts_each_length T l w ys w' :
  converts_each T l w ys w' -> length ys = length l.
Proof. induction 1; simpl; congruence. Qed.

(** Position by position: the [i]-th result is [T] applied to the [i]-th
    element. *)
Lemma converts_each_lookup T l w ys w' (i : nat) (a : value) :
  converts_each T l w ys w' -> l !! i = Some a ->
  exists y wi wi', ys !! i = Some y /\ T a wi = (Ok y, wi').
Proof.
  intros Hc. revert i. induction Hc as [|b l w y w1 ys w' Hb _ IH]; intros i Hi.
  - discriminate.
  - destruct i as [|i]; simpl in Hi.
    + injection Hi as ->. exists y, w, w1. split; [reflexivity | exact Hb].
    + apply IH in Hi. exact Hi.
Qed.

Lemma JsonList_list T l w :
  JsonList T (VList l) w
  = match map_conv T l w with
    | (Ok ys, w') => (Ok (VList ys), w')
    | (Err e, w') => (Err e, w')
    end.
Proof.
  unfold JsonList, bind, lift, ret. simpl.
  destruct (map_conv T l w) as [[ys|e] w']; reflexivity.
Qed.

Lemma map_conv_pure (f : value -> result value) (g : value -> value) l w :
  (forall a, In a l -> f a = Ok (g a)) ->
  map_conv (pure_conv f) l w = (Ok (map g l), w).
Proof.
  induction l as [|a l IH]; intros Hall; simpl; [reflexivity|].
  unfold bind at 1, pure_conv at 1, lift. rewrite (Hall a) by (left; reflexivity).
  unfold bind at 1. rewrite IH by (intros; apply Hall; right; assumption).
  reflexivity.
Qed.
End JsonListFacts.

(** C4.  On a JSON array [JsonList T] applies [T] to the elements from
    left to right.  If every application succeeds the result is the list of
    the results, in the same order and of the same length; if one fails the
    whole call fails with that error and yields no list.  One of the two
    always happens.  For a converter without effects this is the familiar
    [map]. *)
Theorem JsonList_spec {World : Type} (T : converter World) (l : list value) (w : World) :
  (forall ys w', converts_each T l w ys w' ->
     JsonList T (VList l) w = (Ok (VList ys), w') /\ length ys = length l)
  /\ (forall e w', fails_at T l w e w' -> JsonList T (VList l) w = (Err e, w'))
  /\ ((exists ys w', converts_each T l w ys w')
      \/ (exists e w', fails_at T l w e w'))
  /\ (forall (f : value -> result value) (g : value -> value) (u : World),
        (forall a, In a l -> f a = Ok (g a)) ->
        JsonList (pure_conv f) (VList l) u = (Ok (VList (map g l)), u)).
Proof.
  split; [|split; [|split]].
  - intros ys w' Hc. split.
    + rewrite JsonList_list, (converts_each_run _ _ _ _ _ Hc). reflexivity.
    + eapply converts_each_length; eauto.
  - intros e w' Hf. rewrite JsonList_list, (fails_at_run _ _ _ _ _ Hf). reflexivity.
  - destruct (map_conv T l w) as [[ys|e] w'] eqn:Hrun.
    + left. exists ys, w'. apply map_conv_ok. exact Hrun.
    + right. exists e, w'. apply map_conv_err. exact Hrun.
  - intros f g u Hall. rewrite JsonList_list, (map_conv_pure f g) by exact Hall.
    reflexivity.
Qed.

Lemma JsonList_spec_witness :
  JsonList counting_identity (VList [VInt 1; VStr "b"; VNone]) 0%nat
  = (Ok (VList [VInt 1; VStr "b"; VNone]), 3%nat)
  /\ JsonList (Nullable counting_failure) (VList [VNone; VInt 2; VInt 3]) 0%nat
     = (Err (PyExc ValueError "refused"), 1%nat).
Proof.
  split.
  - apply (proj1 (JsonList_spec counting_identity _ 0%nat)).
    repeat (econstructor; try reflexivity).
  - apply (proj1 (proj2 (JsonList_spec (Nullable counting_failure) _ 0%nat))).
    eapply fails_later; [reflexivity|]. apply fails_here. reflexivity.
Defined.

(** ** [PreProcessInt] *)

Lemma py_int_is_int (it v : value) :
  py_int it = Ok v -> exists n, v = VInt n.
Proof.
  destruct it; simpl; try discriminate.
  - intros [= <-]. eauto.
  - intros [= <-]. eauto.
  - destruct (float_trunc f); simpl; [intros [= <-]; eauto | discriminate].
  - destruct (int_literal s); [intros [= <-]; eauto | discriminate].
Qed.

(** The text of an integer starts with a digit or a minus sign. *)
Lemma Z_repr_head (z : Z) :
  exists c s, Z_repr z = String c s /\ (c = "-"%char \/ is_digit c = true).
Proof.
  unfold Z_repr.
  assert (Hu : forall u, exists c s,
             NilZero.string_of_uint u = String c s /\ is_digit c = true).
  { intros u. destruct u; simpl; eauto. }
  destruct (Z.to_int z) as [u|u]; simpl.
  - destruct (Hu u) as (c & s & -> & Hc). eauto.
  - eauto.
Qed.

(** No failure of [int] carries the message of an unknown enum value. *)
Lemma py_int_error_message (it : value) (cls : exc_class) (msg : string) :
  py_int it = Err (PyExc cls msg) ->
  exists s, msg = String "i" s \/ msg = String "c" s.
Proof.
  destruct it; simpl; try discriminate;
    try (intros [= <- <-]; eexists; left; reflexivity).
  - destruct f; simpl; try discriminate;
      intros [= <- <-]; eexists; right; reflexivity.
  - destruct (int_literal s); [discriminate|].
    intros [= <- <-]. eexists; left; reflexivity.
Qed.

Lemma py_int_error_is_exception (it : value) (e : error) :
  py_int it = Err e -> exists cls msg, e = PyExc cls msg.
Proof.
  destruct it; simpl; try discriminate; try (intros [= <-]; eauto).
  - destruct f; simpl; try discriminate; intros [= <-]; eauto.
  - destruct (int_literal s); [discriminate|]. intros [= <-]; eauto.
Qed.

(** C6.  For every enumeration [E] and every raw input, [PreProcessInt E]
    first applies [int] (so the text ["1"] is accepted) and then looks the
    integer up among the members of [E].  A failure of [int] is passed on
    unchanged; an integer that is no member fails with
    [ValueError "<n> is not a valid <E>"], an error that no failure of
    [int] equals. *)
Theorem PreProcessInt_enum {World : Type} (E : Type) {PE : PyEnum E} {RT : Runtime}
    (it : value) (w : World) :
  (forall e, py_int it = Err e ->
     PreProcessInt (Enum E) it w = (Err e, w))
  /\ (forall n m, py_int it = Ok (VInt n) -> enum_lookup E n = Some m ->
        PreProcessInt (Enum E) it w = (Ok (enum_to_value m), w))
  /\ (forall n, py_int it = Ok (VInt n) -> enum_lookup E n = None ->
        let unknown :=
          PyExc ValueError (Z_repr n ++ " is not a valid " ++ enum_qualname) in
        PreProcessInt (Enum E) it w = (Err unknown, w)
        /\ forall it' e', py_int it' = Err e' -> e' <> unknown)
  /\ (is_ok (py_int it) = true -> exists n, py_int it = Ok (VInt n))
  /\ py_int (VStr "1") = Ok (VInt 1).
Proof.
  split; [|split; [|split; [|split]]].
  - intros e He. unfold PreProcessInt, bind, lift. rewrite He. reflexivity.
  - intros n m Hn Hm. unfold PreProcessInt, bind, lift. rewrite Hn.
    unfold Enum, pure_conv, lift. simpl. rewrite Hm. reflexivity.
  - intros n Hn Hm unknown. split.
    + unfold PreProcessInt, bind, lift. rewrite Hn.
      unfold Enum, pure_conv, lift. simpl. rewrite Hm. reflexivity.
    + intros it' e' He' ->. unfold unknown in He'.
      apply py_int_error_message in He' as [s Hs].
      destruct (Z_repr_head n) as (c & t & Hrepr & Hc).
      rewrite Hrepr in Hs. simpl in Hs.
      destruct Hs as [Hs|Hs]; injection Hs as Hs _; subst c;
        destruct Hc as [Hc|Hc]; discriminate.
  - destruct (py_int it) as [v|e] eqn:Hi; [|discriminate].
    intros _. destruct (py_int_is_int _ _ Hi) as [n ->]. eauto.
  - reflexivity.
Qed.

Lemma PreProcessInt_enum_witness :
  PreProcessInt (World := unit) (Enum (RT := integral_runtime) BeatmapStatus.t)
    (VStr "1") tt
  = (Ok (VEnum "BeatmapStatus" "ranked" 1), tt)
  /\ PreProcessInt (World := unit) (Enum (RT := integral_runtime) BeatmapStatus.t)
       (VStr "99") tt
     = (Err (PyExc ValueError "99 is not a valid BeatmapStatus"), tt)
  /\ PreProcessInt (World := unit) (Enum (RT := integral_runtime) BeatmapStatus.t)
       (VStr "ranked") tt
     = (Err (PyExc ValueError "invalid literal for int() with base 10: 'ranked'"), tt).
Proof.
  pose proof (@PreProcessInt_enum unit BeatmapStatus.t _ integral_runtime)
    as Hspec.
  split; [|split].
  - exact (proj1 (proj2 (Hspec (VStr "1") tt)) 1 BeatmapStatus.ranked
             eq_refl eq_refl).
  - exact (proj1 (proj1 (proj2 (proj2 (Hspec (VStr "99") tt))) 99
                    eq_refl eq_refl)).
  - exact (proj1 (Hspec (VStr "ranked") tt) _ eq_refl).
Defined.

(** ** Dates *)




(** *** Characters and numbers *)













(** *** What each directive matches *)










(** *** The date format *)


Lemma rsem_seq_inv (r1 r2 : regex) (t : list ascii) (c c2 : captures) :
  rsem (RSeq r1 r2) t c c2 ->
  exists t1 t2 c1, t = (t1 ++ t2)%list /\ rsem r1 t1 c c1 /\ rsem r2 t2 c1 c2.
Proof. inversion 1; subst. eauto 6. Qed.




(** Peel the first component off a sequence. *)
Tactic Notation "peel" hyp(H) "as" ident(t) ident(Ht) :=
  let rest := fresh "rest" in
  let c := fresh "c" in
  apply rsem_seq_inv in H as (t & rest & c & -> & Ht & H).




(** ** The attribute model *)

Section ConstructFacts.
Context {World : Type}.
Implicit Types (fields pre post : schema World) (raw attrs acc : gmap string value)
  (w : World) (a : attribute World) (field cls : string).


Lemma construct_run cls fields raw w :
  construct cls fields raw w
  = match construct_fields fields raw ∅ w with
    | (Ok attrs, w1) => (Ok (VObj cls attrs), w1)
    | (Err e, w1) => (Err e, w1)
    end.
Proof.
  unfold construct, bind, ret.
  destruct (construct_fields fields raw ∅ w) as [[attrs|e] w1]; reflexivity.
Qed.



Lemma construct_fields_valid fields raw acc w :
  List.NoDup (map fst fields) ->
  (forall field a, In (field, a) fields ->
     exists v x, raw !! source_key field a = Some v /\ attr_type a v w = (Ok x, w)) ->
  exists attrs,
    construct_fields fields raw acc w = (Ok attrs, w)
    /\ (forall field a v x, In (field, a) fields ->
          raw !! source_key field a = Some v ->
          attr_type a v w = (Ok x, w) ->
          attrs !! field = Some x)
    /\ (forall k, ~ In k (map fst fields) -> attrs !! k = acc !! k).
Proof.
  revert acc. induction fields as [|[f b] fields IH]; intros acc Hnd Hvalid; simpl.
  - exists acc. split; [reflexivity | split; [intros ? ? ? ? [] | reflexivity]].
  - inversion Hnd as [|? ? Hfresh Hnd']; subst.
    destruct (Hvalid f b (or_introl eq_refl)) as (v & x & Hk & Hc).
    rewrite Hk, Hc.
    destruct (IH (<[f:=x]> acc) Hnd') as (attrs & Hrun & Hget & Hkeep).
    { intros field a Hin. apply Hvalid. right. exact Hin. }
    exists attrs. split; [exact Hrun | split].
    + intros field a v' x' [Heq|Hin] Hk' Hc'.
      * injection Heq as -> ->.
        rewrite Hk in Hk'. injection Hk' as <-.
        rewrite Hc in Hc'. injection Hc' as <-.
        rewrite (Hkeep field Hfresh). apply lookup_insert_eq.
      * eapply Hget; eauto.
    + intros k Hk'. simpl in Hk'.
      rewrite Hkeep by tauto.
      apply lookup_insert_ne. tauto.
Qed.

(** The attributes of a constructed instance are the declared names. *)
Lemma construct_fields_names fields raw acc w attrs w' :
  construct_fields fields raw acc w = (Ok attrs, w') ->
  forall k, is_Some (attrs !! k) <-> In k (map fst fields) \/ is_Some (acc !! k).
Proof.
  revert acc w. induction fields as [|[f b] fields IH]; intros acc w; simpl.
  - unfold ret. intros [= <- <-] k. tauto.
  - destruct (raw !! source_key f b) as [v|]; [|discriminate].
    destruct (attr_type b v w) as [[x|c] w1]; [|discriminate].
    intros Hrun k. rewrite (IH _ _ Hrun k).
    destruct (decide (f = k)) as [->|Hne].
    + rewrite lookup_insert_eq. split; [intros _; left; left; reflexivity|].
      intros _. right. eauto.
    + rewrite lookup_insert_ne by exact Hne. tauto.
Qed.
End ConstructFacts.




Section TeamScoreFacts.
Context {World : Type} {RT : Runtime}.

Lemma TeamScore_attributes_eq :
  TeamScore_attributes (World := World)
  = (Score_attributes ++ TeamScore_own)%list.
Proof. reflexivity. Qed.

Lemma TeamScore_names_NoDup :
  List.NoDup (map fst (TeamScore_attributes (World := World))).
Proof.
  simpl. repeat (constructor; [simpl; intuition discriminate|]). constructor.
Qed.
End TeamScoreFacts.

(** C7.  The attributes of [TeamScore] are those of [Score], each with its
    converter, followed by [slot], [team] and [passed]; [passed] is read
    from the JSON key ["pass"].  From a raw object in which every source key
    is present and converts, construction succeeds and the instance exposes
    exactly the parent and child attributes under their declared names,
    each holding its converted value. *)
Theorem TeamScore_extends_Score {World : Type} {RT : Runtime} :
  TeamScore_attributes (World := World)
  = (Score_attributes ++ [ ("slot", Attribute int None);
                           ("team", Attribute int None);
                           ("passed", Attribute bool_ (Some "pass")) ])%list
  /\ (forall field a, In (field, a) (Score_attributes (World := World)) ->
        assoc field TeamScore_attributes = Some a)
  /\ source_key (World := World) "passed" (Attribute bool_ (Some "pass")) = "pass"
  /\ (forall (raw : gmap string value) (w : World),
        (forall field a, In (field, a) TeamScore_attributes ->
           exists v x, raw !! source_key field a = Some v
                       /\ attr_type a v w = (Ok x, w)) ->
        exists attrs,
          TeamScore (VDict raw) w = (Ok (VObj "TeamScore" attrs), w)
          /\ (forall k, is_Some (attrs !! k)
                        <-> In k (map fst (Score_attributes (World := World))
                                  ++ ["slot"; "team"; "passed"])%list)
          /\ (forall field a v x, In (field, a) TeamScore_attributes ->
                raw !! source_key field a = Some v ->
                attr_type a v w = (Ok x, w) ->
                attrs !! field = Some x)
          /\ (forall v, raw !! "pass" = Some v ->
                attrs !! "passed" = Some (VBool (truth_value v)))).
Proof.
  split; [reflexivity|]. split; [|split; [reflexivity|]].
  - intros field a Hin. simpl in Hin.
    repeat (destruct Hin as [Hin|Hin]; [injection Hin as <- <-; reflexivity|]).
    destruct Hin.
  - intros raw w Hvalid.
    destruct (construct_fields_valid TeamScore_attributes raw ∅ w
                TeamScore_names_NoDup Hvalid) as (attrs & Hrun & Hget & _).
    exists attrs. split; [|split; [|split]].
    + unfold TeamScore, model_call. rewrite construct_run, Hrun. reflexivity.
    + intros k. rewrite (construct_fields_names _ _ _ _ _ _ Hrun k).
      rewrite lookup_empty. split.
      * intros [Hin|[? [=]]]. exact Hin.
      * intros Hin. left. exact Hin.
    + exact Hget.
    + intros v Hv.
      apply (Hget "passed" (Attribute bool_ (Some "pass")) v).
      * simpl. tauto.
      * exact Hv.
      * reflexivity.
Qed.

Lemma TeamScore_extends_Score_witness :
  exists attrs,
    TeamScore (World := unit) (RT := integral_runtime) (VDict raw_team_score) tt
    = (Ok (VObj "TeamScore" attrs), tt)
    /\ attrs !! "passed" = Some (VBool true)
    /\ attrs !! "pass" = None
    /\ attrs !! "slot" = Some (VInt 3)
    /\ attrs !! "team" = Some (VInt 2)
    /\ attrs !! "score" = Some (VInt 1000000)
    /\ attrs !! "date" = Some (VDateTime (mk_datetime 2014 1 2 3 4 5)).
Proof.
  destruct (proj2 (proj2 (proj2 (@TeamScore_extends_Score unit integral_runtime)))
              raw_team_score tt) as (attrs & Hrun & Hnames & Hget & Hpass).
  { intros field a Hin. simpl in Hin.
    repeat (destruct Hin as [Hin|Hin];
            [injection Hin as <- <-; eexists; eexists;
             split; [vm_compute; reflexivity | vm_compute; reflexivity]|]).
    destruct Hin. }
  exists attrs. split; [exact Hrun|].
  split; [|split; [|split; [|split; [|split]]]].
  - exact (Hpass (VStr "1") eq_refl).
  - destruct (attrs !! "pass") eqn:Hp; [|reflexivity].
    exfalso. assert (Hs : is_Some (attrs !! "pass")) by (rewrite Hp; eauto).
    apply Hnames in Hs. simpl in Hs. intuition discriminate.
  - eapply (Hget "slot"); [simpl; tauto | reflexivity | reflexivity].
  - eapply (Hget "team"); [simpl; tauto | reflexivity | reflexivity].
  - eapply (Hget "score"); [simpl; tauto | reflexivity | reflexivity].
  - eapply (Hget "date"); [simpl; tauto | reflexivity | reflexivity].
Defined.

(** ** The client *)

Lemma is_None_false (v : value) : is_None v = false <-> v <> VNone.
Proof. destruct v; simpl; split; congruence. Qed.

(** The outgoing parameters are the entries of [data] that are not
    [None]. *)
Lemma request_params_lookup (data : gmap string value) (k : string) (v : value) :
  request_params data !! k = Some v <-> data !! k = Some v /\ v <> VNone.
Proof.
  unfold request_params. rewrite map_lookup_filter_Some. simpl.
  rewrite is_None_false. reflexivity.
Qed.

Lemma request_params_omits_None (data : gmap string value) (k : string) :
  data !! k = Some VNone -> request_params data !! k = None.
Proof.
  intros Hk. destruct (request_params data !! k) as [v|] eqn:Hv; [|reflexivity].
  apply request_params_lookup in Hv as [Hv Hne]. congruence.
Qed.

Lemma request_params_never_None (data : gmap string value) (k : string) :
  request_params data !! k <> Some VNone.
Proof. intros Hk. apply request_params_lookup in Hk as [_ Hne]. congruence. Qed.

Section ClientFacts.
Context {World : Type} {RT : Runtime}.
Context (endpoints : Endpoints) (G : namespace World).

(** With a module whose globals bind [JsonList] and [Score] as [model.py]
    defines them, and with [mods] given, [get_scores] performs one request
    whose parameters leave out [u] and [type] when no user is given. *)
Lemma get_scores_with_mods (self : OsuApi World) (beatmap_id : value)
    (cls name : string) (z : Z) (w : World) :
  assoc "JsonList" G = Some (BCombinator JsonList) ->
  assoc "Score" G = Some (BConverter Score) ->
  exists data,
    get_scores endpoints G self beatmap_id None None (Some (VEnum cls name z)) None w
    = process_request (connector self) (SCORES endpoints) data (JsonList Score) w
    /\ data !! "u" = None /\ data !! "type" = None
    /\ data !! "mods" = Some (VInt z) /\ data !! "m" = Some (VInt 0)
    /\ data !! "limit" = Some (VInt 50)
    /\ forall k, data !! k <> Some VNone.
Proof.
  intros HJ HS. eexists. split; [|split; [|split; [|split; [|split; [|split]]]]].
  - unfold get_scores, JsonList_of, load_converter, load_global.
    rewrite HJ, HS. simpl. unfold bind, lift, _make_req. simpl. reflexivity.
  - apply request_params_omits_None. reflexivity.
  - apply request_params_omits_None. reflexivity.
  - apply request_params_lookup. split; [reflexivity | discriminate].
  - apply request_params_lookup. split; [reflexivity | discriminate].
  - apply request_params_lookup. split; [reflexivity | discriminate].
  - intros k. apply request_params_never_None.
Qed.
End ClientFacts.

(** C8.  [get_scores] reads [mods.value] with no test for [None]: when
    the caller leaves [mods] out the call raises [AttributeError] before any
    request is built, whatever the other arguments are; in particular with
    all defaults. *)
Theorem get_scores_defaults {World : Type} {RT : Runtime}
    (endpoints : Endpoints) (G : namespace World) (self : OsuApi World)
    (beatmap_id : value) (username mode limit : option value) (w : World) :
  get_scores endpoints G self beatmap_id username mode None limit w
  = (match get_value (kwarg mode (enum_to_value OsuMode.osu)) with
     | Ok _ => Err (PyExc AttributeError "'NoneType' object has no attribute 'value'")
     | Err e => Err e
     end, w)
  /\ get_scores endpoints G self beatmap_id None None None None w
     = (Err (PyExc AttributeError "'NoneType' object has no attribute 'value'"), w).
Proof.
  split.
  - unfold get_scores, bind, lift.
    destruct (get_value (kwarg mode (enum_to_value OsuMode.osu))); reflexivity.
  - reflexivity.
Qed.

(** C9.  The import statement at the top of [osu.py] asks [model.py] for
    the name [SoloScore], which [model.py] never binds.  Importing the
    client module therefore raises [ImportError], so [get_user_best] cannot
    be called at all; and in any module whose globals do not bind
    [SoloScore] its body raises before it sends a request, for every
    input. *)
Theorem get_user_best_unusable {World : Type} {RT : Runtime}
    (endpoints : Endpoints) (rest : namespace World) (self : OsuApi World)
    (username : value) (mode limit : option value) (w : World) :
  assoc "SoloScore" (model_globals (World := World)) = None
  /\ with_osu_module rest
       (fun G => get_user_best endpoints G self username mode limit) w
     = (Err (PyExc ImportError "cannot import name 'SoloScore' from 'osuapi.model'"), w)
  /\ (forall G : namespace World,
        assoc "SoloScore" G = None ->
        exists e, get_user_best endpoints G self username mode limit w = (Err e, w)).
Proof.
  split; [reflexivity | split; [reflexivity |]].
  intros G HG. unfold get_user_best, bind, lift.
  destruct (get_value (kwarg mode (enum_to_value OsuMode.osu))) as [m|e];
    [|eexists; reflexivity].
  unfold JsonList_of, bind, lift.
  destruct (load_global G "JsonList") as [jl|e]; [|eexists; reflexivity].
  unfold load_converter, load_global. rewrite HG. simpl.
  eexists; reflexivity.
Qed.

Lemma get_user_best_unusable_witness :
  with_osu_module (RT := integral_runtime) []
    (fun G => get_user_best example_endpoints G example_api (VStr "peppy") None None) tt
  = (Err (PyExc ImportError "cannot import name 'SoloScore' from 'osuapi.model'"), tt)
  /\ exists e,
       get_user_best example_endpoints
         [("JsonList", BCombinator JsonList);
          ("Score", BConverter (Score (RT := integral_runtime)))]
         example_api (VStr "peppy") None None tt
       = (Err e, tt).
Proof.
  pose proof (@get_user_best_unusable unit integral_runtime example_endpoints []
                example_api (VStr "peppy") None None tt) as (_ & Himport & Hbody).
  split; [exact Himport|].
  apply Hbody. reflexivity.
Defined.

(** C10.  [User.__str__] returns the global name [username], which nothing
    binds: for every instance, and so for every constructed [User], the
    call raises [NameError] and never returns the user's name. *)
Theorem User_str_fails {World : Type} {RT : Runtime} (self : value) (w : World) :
  User___str__ self w
  = (Err (PyExc NameError "name 'username' is not defined"), w)
  /\ (forall v w', User___str__ self w <> (Ok v, w')).
Proof.
  split; [reflexivity|].
  intros v w'. discriminate.
Qed.

Lemma User_str_fails_witness :
  exists attrs,
    User (World := unit) (RT := integral_runtime) (VDict raw_user) tt
    = (Ok (VObj "User" attrs), tt)
    /\ attrs !! "username" = Some (VStr "peppy")
    /\ User___str__ (RT := integral_runtime) (VObj "User" attrs) tt
       = (Err (PyExc NameError "name 'username' is not defined"), tt).
Proof.
  eexists. split; [vm_compute; reflexivity|].
  split; [vm_compute; reflexivity|].
  exact (proj1 (@User_str_fails unit integral_runtime _ tt)).
Defined.

(** ** The date format, from parsing to the outgoing request *)


Section SinceFacts.
Context {World : Type} {RT : Runtime}.
Context (endpoints : Endpoints) (G : namespace World).

End SinceFacts.

(** ** Completeness of the date parser *)











Section FieldCompleteness.
Context {A : Type}.
Implicit Types (t rest : list ascii) (caps : captures)
  (k : list ascii -> captures -> option A) (a : A).









End FieldCompleteness.








(** *** Writing a date and reading it back *)







(** * Further properties *)

(** ** The outgoing parameters *)

(** X1.  The parameter filter of [_make_req] only removes entries: what it
    keeps is part of the data, no kept value is [None], every value that is
    not [None] is kept (so [False], [0] and the empty string are sent),
    filtering again changes nothing, and data is sent unchanged exactly
    when it holds no [None]. *)
Theorem request_params_filter (data : gmap string value) :
  request_params data ⊆ data
  /\ (forall k, request_params data !! k <> Some VNone)
  /\ (forall k v, data !! k = Some v -> v <> VNone ->
        request_params data !! k = Some v)
  /\ request_params (request_params data) = request_params data
  /\ (request_params data = data <-> forall k, data !! k <> Some VNone)
  /\ (forall k, request_params (<[k := VBool false]> data) !! k = Some (VBool false))
  /\ (forall k, request_params (<[k := VNone]> data) !! k = None).
Proof.
  split; [apply map_filter_subseteq|].
  split; [apply request_params_never_None|].
  split; [intros k v Hk Hv; apply request_params_lookup; auto|].
  split; [|split; [|split]].
  - apply map_eq. intros k.
    destruct (request_params data !! k) as [v|] eqn:Hv.
    + apply request_params_lookup. split; [exact Hv|].
      intros ->. exact (request_params_never_None data k Hv).
    + destruct (request_params (request_params data) !! k) as [v|] eqn:Hv2;
        [|reflexivity].
      apply request_params_lookup in Hv2 as [Hv2 _]. congruence.
  - split.
    + intros Heq k. rewrite <- Heq. apply request_params_never_None.
    + intros Hno. apply map_eq. intros k.
      destruct (data !! k) as [v|] eqn:Hv.
      * apply request_params_lookup. split; [exact Hv|].
        intros ->. exact (Hno k Hv).
      * destruct (request_params data !! k) as [v|] eqn:Hv2; [|reflexivity].
        apply request_params_lookup in Hv2 as [Hv2 _]. congruence.
  - intros k. apply request_params_lookup.
    split; [apply lookup_insert_eq | discriminate].
  - intros k. apply request_params_omits_None. apply lookup_insert_eq.
Qed.

Section RequestFacts.
Context {World : Type} {RT : Runtime}.




End RequestFacts.

(** ** The resource methods *)










(** X6.  The methods read [mode.value] before anything else is done with
    the mode: a mode given as a plain value (a bare code such as [0], a
    name such as ["osu"], [None]) instead of an enumeration member makes
    [get_user], [get_user_best], [get_user_recent], [get_scores] and
    [get_beatmaps] raise [AttributeError] without sending a request. *)
Theorem mode_must_have_value {World : Type}
    (endpoints : Endpoints) (G : namespace World) (self : OsuApi World)
    (mode : value) (w : World) :
  json_value mode = true ->
  exists msg,
    let e := PyExc AttributeError msg in
    (forall username,
       get_user endpoints G self username (Some mode) w = (Err e, w))
    /\ (forall username limit,
          get_user_best endpoints G self username (Some mode) limit w = (Err e, w))
    /\ (forall username limit,
          get_user_recent endpoints G self username (Some mode) limit w
          = (Err e, w))
    /\ (forall beatmap_id username mods limit,
          get_scores endpoints G self beatmap_id username (Some mode) mods limit w
          = (Err e, w))
    /\ (forall beatmapset_id beatmap_id username include_converted
               beatmap_hash limit,
          get_beatmaps endpoints G self None beatmapset_id beatmap_id username
            (Some mode) include_converted beatmap_hash limit w
          = (Err e, w)).
Proof.
  intros Hplain.
  assert (Hfail : exists msg, get_value mode = Err (PyExc AttributeError msg)).
  { destruct mode; try discriminate; eexists; reflexivity. }
  destruct Hfail as [msg Hfail]. exists msg. cbv zeta.
  split; [|split; [|split; [|split]]]; intros.
  - unfold get_user, bind, lift. simpl kwarg. rewrite Hfail. reflexivity.
  - unfold get_user_best, bind, lift. simpl kwarg. rewrite Hfail. reflexivity.
  - unfold get_user_recent, bind, lift. simpl kwarg. rewrite Hfail. reflexivity.
  - unfold get_scores, bind, lift. simpl kwarg. rewrite Hfail. reflexivity.
  - unfold get_beatmaps, bind, lift, ret. simpl kwarg. simpl is_None. cbv iota.
    rewrite Hfail. reflexivity.
Qed.

Lemma mode_must_have_value_witness :
  get_user example_endpoints (repaired_globals (RT := integral_runtime))
    echo_api (VStr "peppy") (Some (VInt 0)) tt
  = (Err (PyExc AttributeError "'int' object has no attribute 'value'"), tt).
Proof.
  destruct (@mode_must_have_value unit example_endpoints
              (repaired_globals (RT := integral_runtime)) echo_api (VInt 0) tt)
    as (msg & Huser & _); [reflexivity|].
  cbv zeta in Huser. specialize (Huser (VStr "peppy")).
  rewrite Huser. vm_compute in Huser. injection Huser as <-. reflexivity.
Defined.

(** X7.  The [since] argument of [get_beatmaps] is formatted as a date
    before anything is sent: a date given as text, a timestamp number or
    any other plain value except [None] makes the call raise, and no
    request is sent. *)
Theorem get_beatmaps_since_must_be_datetime {World : Type}
    (endpoints : Endpoints) (G : namespace World) (self : OsuApi World)
    (since : value)
    (beatmapset_id beatmap_id username mode include_converted beatmap_hash
       limit : option value) (w : World) :
  json_value since = true ->
  since <> VNone ->
  exists cls msg,
    (cls = ValueError \/ cls = TypeError)
    /\ get_beatmaps endpoints G self (Some since) beatmapset_id beatmap_id
         username mode include_converted beatmap_hash limit w
       = (Err (PyExc cls msg), w).
Proof.
  intros Hplain Hnone. unfold get_beatmaps. simpl kwarg.
  unfold bind at 1.
  destruct since; try discriminate; try contradiction; simpl;
    eexists; eexists; (split; [|reflexivity]); auto.
Qed.

Lemma get_beatmaps_since_must_be_datetime_witness :
  exists e,
    get_beatmaps example_endpoints (repaired_globals (RT := integral_runtime))
      echo_api (Some (VStr "2014-01-02 03:04:05")) None None None None None
      None None tt
    = (Err e, tt).
Proof.
  destruct (@get_beatmaps_since_must_be_datetime unit example_endpoints
              (repaired_globals (RT := integral_runtime)) echo_api
              (VStr "2014-01-02 03:04:05") None None None None None None None tt)
    as (cls & msg & _ & Hrun); [reflexivity | discriminate |].
  eexists. exact Hrun.
Defined.



(** ** More on the converters *)

(** X9.  In each of the four enumerations no two members share a code or
    a name, and the code of every member, whether it arrives as an integer
    or written in decimal as the API sends it, is converted back to that
    very member by [PreProcessInt]: what the client sends as [m] is read
    back as the same game mode. *)
Theorem enum_codes_round_trip {World : Type} {RT : Runtime} :
  (distinct_members OsuMode.t /\ code_round_trip (World := World) OsuMode.t)
  /\ (distinct_members BeatmapStatus.t
      /\ code_round_trip (World := World) BeatmapStatus.t)
  /\ (distinct_members BeatmapGenre.t
      /\ code_round_trip (World := World) BeatmapGenre.t)
  /\ (distinct_members BeatmapLanguage.t
      /\ code_round_trip (World := World) BeatmapLanguage.t).
Proof.
  repeat match goal with |- _ /\ _ => split end;
    try (intros m m'; split; destruct m, m'; simpl;
         intros Heq; first [reflexivity | discriminate Heq]);
    intros m w; split; destruct m; reflexivity.
Qed.


(** X11.  [JsonList(T)] does not run [T] on an empty list, which it
    returns empty; it raises [TypeError], again without running [T], when
    given [None], a number or a boolean instead of a list; and on a text it
    does not fail but converts the characters one by one. *)
Theorem JsonList_edge_cases {World : Type} (T : converter World) (w : World) :
  JsonList T (VList []) w = (Ok (VList []), w)
  /\ (forall lst,
        lst = VNone \/ (exists b, lst = VBool b) \/ (exists z, lst = VInt z)
        \/ (exists f, lst = VFloat f) ->
        exists msg, JsonList T lst w = (Err (PyExc TypeError msg), w))
  /\ (forall s,
        JsonList T (VStr s) w
        = JsonList T
            (VList (map (fun c => VStr (String c EmptyString))
                      (list_ascii_of_string s))) w).
Proof.
  split; [reflexivity|]. split; [|reflexivity].
  intros lst [-> | [[b ->] | [[z ->] | [f ->]]]]; eexists; reflexivity.
Qed.

(** X12.  [JsonList(T)] on a concatenation is [JsonList(T)] on the first
    part followed, in the world the first part leaves, by [JsonList(T)] on
    the second: the results are concatenated, and a failure in the first
    part is the failure of the whole, the second part not being visited. *)
Theorem JsonList_app {World : Type} (T : converter World)
    (l1 l2 : list value) (w : World) :
  (forall ys1 w1 ys2 w2,
     JsonList T (VList l1) w = (Ok (VList ys1), w1) ->
     JsonList T (VList l2) w1 = (Ok (VList ys2), w2) ->
     JsonList T (VList (l1 ++ l2)) w = (Ok (VList (ys1 ++ ys2)), w2))
  /\ (forall e w1,
        JsonList T (VList l1) w = (Err e, w1) ->
        JsonList T (VList (l1 ++ l2)) w = (Err e, w1))
  /\ (forall ys1 w1 e w2,
        JsonList T (VList l1) w = (Ok (VList ys1), w1) ->
        JsonList T (VList l2) w1 = (Err e, w2) ->
        JsonList T (VList (l1 ++ l2)) w = (Err e, w2)).
Proof.
  assert (Happ : forall l w0,
            map_conv T (l ++ l2) w0
            = match map_conv T l w0 with
              | (Ok ys1, w1) =>
                  match map_conv T l2 w1 with
                  | (Ok ys2, w2) => (Ok (ys1 ++ ys2)%list, w2)
                  | (Err e, w2) => (Err e, w2)
                  end
              | (Err e, w1) => (Err e, w1)
              end).
  { induction l as [|a l IH]; intros w0; simpl.
    - unfold ret. destruct (map_conv T l2 w0) as [[ys2|e] w2]; reflexivity.
    - unfold bind, ret. destruct (T a w0) as [[y|e] wa]; [|reflexivity].
      rewrite IH.
      destruct (map_conv T l wa) as [[ys1|e] w1]; [|reflexivity].
      destruct (map_conv T l2 w1) as [[ys2|e] w2]; reflexivity. }
  split; [|split].
  - intros ys1 w1 ys2 w2. rewrite !JsonList_list, Happ.
    destruct (map_conv T l1 w) as [[zs1|e] u1]; [|discriminate].
    intros [= <- <-].
    destruct (map_conv T l2 u1) as [[zs2|e] u2]; [|discriminate].
    intros [= <- <-]. reflexivity.
  - intros e w1. rewrite !JsonList_list, Happ.
    destruct (map_conv T l1 w) as [[zs1|e1] u1]; [discriminate|].
    intros [= <- <-]. reflexivity.
  - intros ys1 w1 e w2. rewrite !JsonList_list, Happ.
    destruct (map_conv T l1 w) as [[zs1|e1] u1]; [|discriminate].
    intros [= <- <-].
    destruct (map_conv T l2 u1) as [[zs2|e2] u2]; [discriminate|].
    intros [= <- <-]. reflexivity.
Qed.

Lemma JsonList_app_witness :
  JsonList counting_identity (VList ([VInt 1; VInt 2] ++ [VInt 3])) 0%nat
  = (Ok (VList ([VInt 1; VInt 2] ++ [VInt 3])), 3%nat)
  /\ JsonList (Nullable counting_failure) (VList ([VNone; VInt 2] ++ [VInt 3])) 0%nat
     = (Err (PyExc ValueError "refused"), 1%nat).
Proof.
  split.
  - apply (proj1 (JsonList_app counting_identity [VInt 1; VInt 2] [VInt 3] 0%nat)
             [VInt 1; VInt 2] 2%nat [VInt 3] 3%nat); reflexivity.
  - apply (proj1 (proj2 (JsonList_app (Nullable counting_failure)
                           [VNone; VInt 2] [VInt 3] 0%nat))); reflexivity.
Defined.

(** X13.  Whatever [PreProcessInt] wraps is only ever applied to an
    integer: when [int] refuses the raw value the wrapped converter is not
    run and the error is [int]'s, and otherwise it is run once, on the
    integer [int] returned. *)
Theorem PreProcessInt_applies_to_int {World : Type} (T : converter World)
    (it : value) (w : World) :
  (exists e, py_int it = Err e /\ PreProcessInt T it w = (Err e, w))
  \/ (exists n, py_int it = Ok (VInt n) /\ PreProcessInt T it w = T (VInt n) w).
Proof.
  unfold PreProcessInt, bind, lift.
  destruct (py_int it) as [v|e] eqn:Hint.
  - right. destruct (py_int_is_int _ _ Hint) as [n ->]. eauto.
  - left. eauto.
Qed.

(** ** Instances: derived properties and [__repr__] *)

Section InstanceFacts.
Context {World : Type}.
Implicit Types (fields : schema World) (raw attrs acc : gmap string value)
  (w : World).

Lemma construct_fields_keeps fields raw acc w attrs w' :
  construct_fields fields raw acc w = (Ok attrs, w') ->
  forall k, ~ In k (map fst fields) -> attrs !! k = acc !! k.
Proof.
  revert acc w. induction fields as [|[f b] fields IH]; intros acc w; simpl.
  - unfold ret. intros [= <- <-]. reflexivity.
  - destruct (raw !! source_key f b) as [v|]; [|discriminate].
    destruct (attr_type b v w) as [[x|c] w1]; [|discriminate].
    intros Hrun k Hk. rewrite (IH _ _ Hrun k) by tauto.
    apply lookup_insert_ne. tauto.
Qed.

(** In a constructed instance every attribute holds what its converter
    returned for the raw value under its key. *)
Lemma construct_fields_converted fields raw acc w attrs w' :
  List.NoDup (map fst fields) ->
  construct_fields fields raw acc w = (Ok attrs, w') ->
  forall field a, In (field, a) fields ->
    exists v x wi wi',
      raw !! source_key field a = Some v
      /\ attr_type a v wi = (Ok x, wi')
      /\ attrs !! field = Some x.
Proof.
  revert acc w. induction fields as [|[f b] fields IH]; intros acc w Hnd; simpl.
  - intros _ field a [].
  - inversion Hnd as [|? ? Hfresh Hnd']; subst.
    destruct (raw !! source_key f b) as [v|] eqn:Hk; [|discriminate].
    destruct (attr_type b v w) as [[x|c] w1] eqn:Hc; [|discriminate].
    intros Hrun field a [Heq|Hin].
    + injection Heq as <- <-. exists v, x, w, w1.
      split; [exact Hk|]. split; [exact Hc|].
      rewrite (construct_fields_keeps _ _ _ _ _ _ Hrun f Hfresh).
      apply lookup_insert_eq.
    + eapply IH; eauto.
Qed.
End InstanceFacts.

Section UserFacts.
Context {World : Type} {RT : Runtime}.

Lemma User_names_NoDup :
  List.NoDup (map fst (User_attributes (World := World))).
Proof.
  simpl. repeat (constructor; [simpl; intuition discriminate|]). constructor.
Qed.

(** What the [User] converter returns. *)
Lemma User_constructed (raw : gmap string value) (inst : value) (w w' : World) :
  User (VDict raw) w = (Ok inst, w') ->
  exists attrs,
    inst = VObj "User" attrs
    /\ attrs !! "__module__" = None
    /\ forall field a, In (field, a) (User_attributes (World := World)) ->
         exists v x wi wi',
           raw !! source_key field a = Some v
           /\ attr_type a v wi = (Ok x, wi')
           /\ attrs !! field = Some x.
Proof.
  unfold User, model_call. rewrite construct_run.
  destruct (construct_fields User_attributes raw ∅ w) as [[attrs|e] w1] eqn:Hrun;
    [|discriminate].
  intros [= <- <-]. exists attrs. split; [reflexivity|]. split.
  - rewrite (construct_fields_keeps _ _ _ _ _ _ Hrun "__module__").
    + apply lookup_empty.
    + simpl. intuition discriminate.
  - apply (construct_fields_converted _ _ _ _ _ _ User_names_NoDup Hrun).
Qed.

Lemma int_attribute (v x : value) (wi wi' : World) :
  int v wi = (Ok x, wi') -> exists n, x = VInt n /\ py_int v = Ok (VInt n).
Proof.
  unfold int, pure_conv, lift. intros [= Hint <-].
  destruct (py_int_is_int _ _ Hint) as [n ->]. eauto.
Qed.

Lemma str_attribute (v x : value) (wi wi' : World) :
  str v wi = (Ok x, wi') -> exists s, x = VStr s /\ py_str v = Ok (VStr s).
Proof.
  unfold str, pure_conv, lift. unfold py_str at 1. intros [= <- <-]. eauto.
Qed.
End UserFacts.

Lemma string_of_list_ascii_app (a b : list ascii) :
  string_of_list_ascii (a ++ b) = string_of_list_ascii a ++ string_of_list_ascii b.
Proof. induction a as [|c a IH]; simpl; [reflexivity | rewrite IH; reflexivity]. Qed.

(** X14.  For every user the [User] converter builds from raw JSON,
    [total_hits] succeeds and is the sum of the three hit counts, each
    being [int] of the raw value under its key. *)
Theorem User_total_hits_sum {World : Type} {RT : Runtime}
    (raw : gmap string value) (inst : value) (w w' : World) :
  User (VDict raw) w = (Ok inst, w') ->
  exists r300 r100 r50 n300 n100 n50,
    raw !! "count300" = Some r300 /\ py_int r300 = Ok (VInt n300)
    /\ raw !! "count100" = Some r100 /\ py_int r100 = Ok (VInt n100)
    /\ raw !! "count50" = Some r50 /\ py_int r50 = Ok (VInt n50)
    /\ User_total_hits inst = Ok (VInt (n300 + n100 + n50)).
Proof.
  intros Hrun. apply User_constructed in Hrun as (attrs & -> & _ & Hattr).
  destruct (Hattr "count300" (Attribute int None)) as (r300 & x300 & ? & ? & Hk300 & Hc300 & Ha300);
    [simpl; tauto|].
  destruct (Hattr "count100" (Attribute int None)) as (r100 & x100 & ? & ? & Hk100 & Hc100 & Ha100);
    [simpl; tauto|].
  destruct (Hattr "count50" (Attribute int None)) as (r50 & x50 & ? & ? & Hk50 & Hc50 & Ha50);
    [simpl; tauto|].
  apply int_attribute in Hc300 as (n300 & -> & Hi300).
  apply int_attribute in Hc100 as (n100 & -> & Hi100).
  apply int_attribute in Hc50 as (n50 & -> & Hi50).
  exists r300, r100, r50, n300, n100, n50.
  repeat (split; [assumption|]).
  unfold User_total_hits, py_getattr. rewrite Ha300, Ha100, Ha50. reflexivity.
Qed.

Lemma User_total_hits_sum_witness :
  exists inst,
    User (World := unit) (RT := integral_runtime) (VDict raw_user) tt = (Ok inst, tt)
    /\ User_total_hits inst = Ok (VInt 450).
Proof.
  destruct (User (World := unit) (RT := integral_runtime) (VDict raw_user) tt)
    as [[inst|e] []] eqn:Hrun; [|vm_compute in Hrun; discriminate].
  exists inst. split; [reflexivity|].
  destruct (@User_total_hits_sum unit integral_runtime raw_user inst tt tt Hrun)
    as (r300 & r100 & r50 & n300 & n100 & n50
        & Hk300 & Hi300 & Hk100 & Hi100 & Hk50 & Hi50 & Hsum).
  rewrite Hsum.
  vm_compute in Hk300, Hk100, Hk50.
  injection Hk300 as <-. injection Hk100 as <-. injection Hk50 as <-.
  vm_compute in Hi300, Hi100, Hi50.
  injection Hi300 as <-. injection Hi100 as <-. injection Hi50 as <-.
  reflexivity.
Defined.

(** X15.  For every user the [User] converter builds from raw JSON,
    [__repr__] succeeds (unlike [__str__]) and reads
    ["<osuapi.model.User username=NAME user_id=ID>"], where NAME is the
    text of the raw [username] and ID is [int] of the raw [user_id], written
    in decimal. *)
Theorem User_repr_text {World : Type} {RT : Runtime}
    (raw : gmap string value) (inst : value) (w w' : World) :
  User (VDict raw) w = (Ok inst, w') ->
  exists rname rid name id,
    raw !! "username" = Some rname /\ py_str rname = Ok (VStr name)
    /\ raw !! "user_id" = Some rid /\ py_int rid = Ok (VInt id)
    /\ User___repr__ inst
       = Ok (VStr ("<osuapi.model.User username=" ++ name
                   ++ " user_id=" ++ Z_repr id ++ ">")).
Proof.
  intros Hrun. apply User_constructed in Hrun as (attrs & -> & Hmod & Hattr).
  destruct (Hattr "username" (Attribute str None))
    as (rname & xname & ? & ? & Hkn & Hcn & Han); [simpl; tauto|].
  destruct (Hattr "user_id" (Attribute int None))
    as (rid & xid & ? & ? & Hki & Hci & Hai); [simpl; tauto|].
  apply str_attribute in Hcn as (name & -> & Hsn).
  apply int_attribute in Hci as (id & -> & Hii).
  exists rname, rid, name, id.
  repeat (split; [assumption|]).
  unfold User___repr__, format_0.
  cbn [list_ascii_of_string format_chars Ascii.eqb Bool.eqb rev app
       format_field existsb orb string_of_list_ascii py_getattr result_bind].
  rewrite Hmod, Han, Hai.
  cbn [String.eqb Ascii.eqb Bool.eqb py_str result_bind list_ascii_of_string
       app].
  cbn [string_of_list_ascii].
  rewrite string_of_list_ascii_app, string_of_list_ascii_of_string.
  cbn [string_of_list_ascii].
  rewrite string_of_list_ascii_app, string_of_list_ascii_of_string.
  reflexivity.
Qed.

Lemma User_repr_text_witness :
  exists inst,
    User (World := unit) (RT := integral_runtime) (VDict raw_user) tt = (Ok inst, tt)
    /\ User___repr__ (RT := integral_runtime) inst
       = Ok (VStr "<osuapi.model.User username=peppy user_id=2>").
Proof.
  destruct (User (World := unit) (RT := integral_runtime) (VDict raw_user) tt)
    as [[inst|e] []] eqn:Hrun; [|vm_compute in Hrun; discriminate].
  exists inst. split; [reflexivity|].
  destruct (@User_repr_text unit integral_runtime raw_user inst tt tt Hrun)
    as (rname & rid & name & id & Hkn & Hsn & Hki & Hii & Hrepr).
  rewrite Hrepr.
  vm_compute in Hkn, Hki. injection Hkn as <-. injection Hki as <-.
  vm_compute in Hsn, Hii. injection Hsn as <-. injection Hii as <-.
  reflexivity.
Defined.

Lemma JsonList_edge_cases_witness :
  JsonList counting_failure (VList []) 0%nat = (Ok (VList []), 0%nat)
  /\ (exists msg, JsonList counting_failure VNone 0%nat
                  = (Err (PyExc TypeError msg), 0%nat))
  /\ JsonList counting_identity (VStr "ab") 0%nat
     = (Ok (VList [VStr "a"; VStr "b"]), 2%nat).
Proof.
  destruct (JsonList_edge_cases counting_failure 0%nat) as (Hempty & Hbad & _).
  destruct (JsonList_edge_cases counting_identity 0%nat) as (_ & _ & Htext).
  split; [exact Hempty|]. split; [apply Hbad; left; reflexivity|].
  rewrite Htext. reflexivity.
Defined.

(** ** The declarations of the models *)

Ltac distinct_strings :=
  simpl; repeat (constructor; [simpl; intuition discriminate|]); constructor.

(** X16.  In every model of [model.py] the attribute names are pairwise
    distinct and so are the JSON keys they read, so no attribute overrides
    or shadows another; and the only attribute read from a key other than
    its own name is [passed] of [TeamScore], read from ["pass"]. *)
Theorem models_read_distinct_keys {World : Type} {RT : Runtime} :
  let well_keyed (fields : schema World) :=
    List.NoDup (map fst fields) /\ List.NoDup (source_keys fields) in
  (well_keyed Score_attributes /\ renamed_attributes (World := World) Score_attributes = [])
  /\ (well_keyed TeamScore_attributes
      /\ renamed_attributes (World := World) TeamScore_attributes = [("passed", "pass")])
  /\ (well_keyed User_attributes /\ renamed_attributes (World := World) User_attributes = [])
  /\ (well_keyed Beatmap_attributes
      /\ renamed_attributes (World := World) Beatmap_attributes = [])
  /\ (well_keyed MatchMetadata_attributes
      /\ renamed_attributes (World := World) MatchMetadata_attributes = [])
  /\ (well_keyed Game_attributes /\ renamed_attributes (World := World) Game_attributes = [])
  /\ (well_keyed Match_attributes /\ renamed_attributes (World := World) Match_attributes = []).
Proof.
  cbv zeta.
  repeat match goal with |- _ /\ _ => split end;
    first [ reflexivity | distinct_strings ].
Qed.
